(** * openai-cli: a shallow embedding of [cmd/openai-cli/main.go]

    The program is a cobra command dispatcher with seven subcommands.  Every
    handler resolves an API key, builds one request, calls the API client
    once, transforms the response and writes to the console or to a file.

    Layout of this development:
    - Go values: [string] is a byte string ([String.string]), [[]byte] is
      [list byte], a [(value, error)] pair is a [result], an [error] is the
      text returned by its [Error()] method;
    - [Base64]: [encoding/base64]'s [StdEncoding], written out;
    - the program state [World] (the global [openaiKey], the environment,
      the file system, the console, the trace of API calls) and the monad
      [M] of commands that return, exit or panic;
    - the handlers of [main.go], one definition per Go function, and the
      command table of [main];
    - the theorems about them. *)

From Stdlib Require Import ZArith QArith String Ascii List Strings.Byte DecimalString.
From stdpp Require Import gmap strings list.

Local Open Scope string_scope.
Local Open Scope list_scope.

(** ** Go values *)

(** The text of a Go [error] value, as [Error()] returns it. *)
Definition error : Type := string.

(** A Go result pair [(v, err)]: [Ok v] when [err == nil]. *)
Inductive result (A : Type) : Type :=
| Ok (v : A)
| Err (e : error).
Arguments Ok {A} v.
Arguments Err {A} e.

Definition result_bind {A B : Type} (r : result A) (k : A → result B) : result B :=
  match r with
  | Ok v => k v
  | Err e => Err e
  end.

(** [strconv.Itoa] on a non-negative number. *)
Definition itoa (n : nat) : string := NilEmpty.string_of_uint (Nat.to_uint n).

(** [[]byte(s)] and [string(b)]. *)
Definition bytes_of_string (s : string) : list byte := list_byte_of_string s.
Definition string_of_bytes (b : list byte) : string := string_of_list_byte b.

(** ** encoding/base64, StdEncoding *)

Module Base64.

Definition encodeStd : string :=
  "ABCDEFGHIJKLMNOPQRSTUVWXYZabcdefghijklmnopqrstuvwxyz0123456789+/".

Definition padChar : byte := "="%byte.

Definition byte_of_N (n : N) : byte :=
  match Byte.of_N (n mod 256) with
  | Some b => b
  | None => "000"%byte
  end.

Fixpoint index_of (c : byte) (alphabet : list byte) (i : N) : N :=
  match alphabet with
  | [] => 255
  | a :: rest => if Byte.eqb a c then i else index_of c rest (N.succ i)
  end.

(** [enc.decodeMap]: the sextet of a letter of the alphabet, 0xff for any
    other byte. *)
Definition decodeMap (c : byte) : N :=
  index_of c (bytes_of_string encodeStd) 0.

Definition encodeMap (n : N) : byte :=
  nth (N.to_nat n) (bytes_of_string encodeStd) "000"%byte.

Definition isNewline (c : byte) : bool :=
  Byte.eqb c "010"%byte || Byte.eqb c "013"%byte.

Definition CorruptInputError (offset : nat) : error :=
  "illegal base64 data at input byte " +:+ itoa offset.

(** The three bytes of a quantum of (up to) four sextets; [dlen] sextets
    carry [dlen - 1] bytes of output. *)
Definition quantum (dlen : nat) (dbuf : list N) : list byte :=
  let d i := nth i dbuf 0%N in
  let val := N.lor (N.lor (N.shiftl (d 0) 18) (N.shiftl (d 1) 12))
                   (N.lor (N.shiftl (d 2) 6) (d 3)) in
  firstn (dlen - 1)
    [byte_of_N (N.shiftr val 16); byte_of_N (N.shiftr val 8); byte_of_N val].

Fixpoint skipNewlines (src : list byte) (si : nat) : list byte * nat :=
  match src with
  | c :: rest => if isNewline c then skipNewlines rest (S si) else (src, si)
  | [] => ([], si)
  end.

(** [Decode]: [si] is the offset of the head of [src] in the input, [dbuf]
    the sextets of the quantum being read, [dst] the bytes decoded so far.
    Line breaks are skipped; padding ends the input. *)
Fixpoint decode (src : list byte) (si : nat) (dbuf : list N) (dst : list byte)
  : result (list byte) :=
  match src with
  | [] =>
      match dbuf with
      | [] => Ok dst
      | _ => Err (CorruptInputError (si - length dbuf))
      end
  | c :: rest =>
      let out := decodeMap c in
      if negb (N.eqb out 255) then
        let dbuf' := dbuf ++ [out] in
        if Nat.eqb (length dbuf') 4
        then decode rest (S si) [] (dst ++ quantum 4 dbuf')
        else decode rest (S si) dbuf' dst
      else if isNewline c then decode rest (S si) dbuf dst
      else if negb (Byte.eqb c padChar) then Err (CorruptInputError si)
      else
        match length dbuf with
        | 0 | 1 => Err (CorruptInputError si)
        | 2 =>
            match skipNewlines rest (S si) with
            | ([], s1) => Err (CorruptInputError s1)
            | (c2 :: r2, s1) =>
                if negb (Byte.eqb c2 padChar) then Err (CorruptInputError (s1 - 1))
                else
                  match skipNewlines r2 (S s1) with
                  | ([], _) => Ok (dst ++ quantum 2 dbuf)
                  | (_ :: _, s3) => Err (CorruptInputError s3)
                  end
            end
        | _ =>
            match skipNewlines rest (S si) with
            | ([], _) => Ok (dst ++ quantum (length dbuf) dbuf)
            | (_ :: _, s3) => Err (CorruptInputError s3)
            end
        end
  end.

Definition DecodeString (s : string) : result (list byte) :=
  decode (bytes_of_string s) 0 [] [].

(** [Encode]: three bytes give four letters, the last group is padded. *)
Fixpoint encode (src : list byte) : list byte :=
  match src with
  | [] => []
  | [a] =>
      let val := N.shiftl (Byte.to_N a) 16 in
      [encodeMap (N.land (N.shiftr val 18) 63); encodeMap (N.land (N.shiftr val 12) 63);
       padChar; padChar]
  | [a; b] =>
      let val := N.lor (N.shiftl (Byte.to_N a) 16) (N.shiftl (Byte.to_N b) 8) in
      [encodeMap (N.land (N.shiftr val 18) 63); encodeMap (N.land (N.shiftr val 12) 63);
       encodeMap (N.land (N.shiftr val 6) 63); padChar]
  | a :: b :: c :: rest =>
      let val := N.lor (N.lor (N.shiftl (Byte.to_N a) 16) (N.shiftl (Byte.to_N b) 8))
                       (Byte.to_N c) in
      encodeMap (N.land (N.shiftr val 18) 63) :: encodeMap (N.land (N.shiftr val 12) 63)
        :: encodeMap (N.land (N.shiftr val 6) 63) :: encodeMap (N.land val 63)
        :: encode rest
  end.

Definition EncodeToString (src : list byte) : string :=
  string_of_bytes (encode src).

End Base64.

(** ** The API client: requests and responses

    Package [openai] is not among the sources embedded here; its request and
    response structs are declared with the fields [main.go] reads or sets
    (a field the program leaves out of a struct literal has Go's zero
    value), and its string constants are taken as parameters. *)

Record CompletionRequest := {
  cr_Model : string;
  cr_Prompt : string;
  cr_MaxTokens : Z;
  cr_Temperature : Q;
  cr_N : Z;
}.

Record CompletionChoice := { Text : string }.

Record CompletionResponse := { Choices : list CompletionChoice }.

Record ImageRequest := {
  ir_Prompt : string;
  ir_N : Z;
  ir_Size : string;
  ir_ResponseFormat : string;
  ir_User : string;
}.

Record ImageResponseDataInner := { B64JSON : string }.

Record ImageResponse := { Data : list ImageResponseDataInner }.

(** An open [*os.File]: its name and what reading it yields. *)
Record File := { f_name : string; f_contents : list byte }.

Record ImageEditRequest := {
  ie_Image : File;
  ie_Prompt : string;
  ie_N : Z;
  ie_Size : string;
}.

Record AudioRequest := {
  ar_Model : string;
  ar_FilePath : string;
  ar_Prompt : string;
  ar_Temperature : Q;
  ar_Language : string;
}.

Record AudioResponse := { ar_Text : string }.

(** [*openai.Client], as [openai.NewClient(key)] builds it. *)
Record Client := { authToken : string }.

Definition openai_NewClient (key : string) : Client := {| authToken := key |}.

(** One call of a client method, as it appears in the trace of the run. *)
Inductive ApiCall :=
| CallCreateCompletion (c : Client) (req : CompletionRequest)
| CallCreateImage (c : Client) (req : ImageRequest)
| CallCreateEditImage (c : Client) (req : ImageEditRequest)
| CallCreateTranscription (c : Client) (req : AudioRequest).

(** The remote side: what the API answers to each call.  [CreateTranscription]
    is handed the file its request names ([None] when it cannot be opened). *)
Record Remote := {
  api_CreateCompletion : Client → CompletionRequest → result CompletionResponse;
  api_CreateImage : Client → ImageRequest → result ImageResponse;
  api_CreateEditImage : Client → ImageEditRequest → result ImageResponse;
  api_CreateTranscription :
    Client → AudioRequest → option (list byte) → result AudioResponse;
}.

(** The library functions [strToImageBytes] calls besides base64, and the
    two constants of package [openai] that [imageGeneration] and
    [imageEditing] name.  [json_Unmarshal_ImageData input] stands for
    [json.Unmarshal(input, &imageData)] at the local struct
    [ImageData { Data string `json:"data"` }]: the value left in
    [imageData.Data] when the error is nil. *)
Record Libs := {
  Image : Type;
  json_Unmarshal_ImageData : list byte → result string;
  image_Decode : list byte → result Image;
  png_Encode : Image → result (list byte);
  CreateImageSize256x256 : string;
  CreateImageResponseFormatB64JSON : string;
}.

(** ** The state of a run *)

Record World := {
  openaiKey : string;                (* var openaiKey string *)
  environ : gmap string string;      (* the process environment *)
  files : gmap string (list byte);   (* the file system, by path *)
  unwritable : gset string;          (* paths that cannot be opened for writing *)
  stdout : string;                   (* bytes written to standard output *)
  logged : list string;              (* messages of package log, oldest first *)
  calls : list ApiCall;              (* API calls issued, oldest first *)
}.

(** How a command ends: it returns, [os.Exit]s, or panics. *)
Inductive outcome (A : Type) : Type :=
| Returned (a : A)
| Exited (code : Z)
| Panicked (msg : string).
Arguments Returned {A} a.
Arguments Exited {A} code.
Arguments Panicked {A} msg.

Definition M (A : Type) : Type := World → outcome A * World.

Definition ret {A : Type} (a : A) : M A := λ w, (Returned a, w).

Definition bind {A B : Type} (m : M A) (k : A → M B) : M B :=
  λ w, match m w with
       | (Returned a, w') => k a w'
       | (Exited code, w') => (Exited code, w')
       | (Panicked msg, w') => (Panicked msg, w')
       end.

Notation "'do' x <- m ; k" := (bind m (λ x, k))
  (at level 10, x name, m at level 100, k at level 200).
Notation "m ;; k" := (bind m (λ _, k))
  (at level 100, k at level 200, right associativity).

Definition set_openaiKey (k : string) (w : World) : World :=
  {| openaiKey := k; environ := environ w; files := files w;
     unwritable := unwritable w; stdout := stdout w; logged := logged w;
     calls := calls w |}.

Definition set_files (fs : gmap string (list byte)) (w : World) : World :=
  {| openaiKey := openaiKey w; environ := environ w; files := fs;
     unwritable := unwritable w; stdout := stdout w; logged := logged w;
     calls := calls w |}.

Definition add_stdout (s : string) (w : World) : World :=
  {| openaiKey := openaiKey w; environ := environ w; files := files w;
     unwritable := unwritable w; stdout := stdout w +:+ s; logged := logged w;
     calls := calls w |}.

Definition add_logged (msg : string) (w : World) : World :=
  {| openaiKey := openaiKey w; environ := environ w; files := files w;
     unwritable := unwritable w; stdout := stdout w; logged := logged w ++ [msg];
     calls := calls w |}.

Definition add_call (c : ApiCall) (w : World) : World :=
  {| openaiKey := openaiKey w; environ := environ w; files := files w;
     unwritable := unwritable w; stdout := stdout w; logged := logged w;
     calls := calls w ++ [c] |}.

(** *** Runtime and standard library actions *)

(** [log.Fatal(v)]: the message goes to the logger, then [os.Exit(1)]. *)
Definition log_Fatal {A : Type} (msg : string) : M A :=
  λ w, (Exited 1, add_logged msg w).

Definition fmt_Println (s : string) : M unit :=
  λ w, (Returned tt, add_stdout (s +:+ String "010" "") w).

(** [fmt.Printf(format, s)]: the caller passes the formatted text. *)
Definition fmt_Printf (formatted : string) : M unit :=
  λ w, (Returned tt, add_stdout formatted w).

(** [os.Getenv]: the empty string for a variable that is not set. *)
Definition os_Getenv (name : string) : M string :=
  λ w, (Returned (default "" (environ w !! name)), w).

Definition ErrNotExist (op path : string) : error :=
  op +:+ " " +:+ path +:+ ": no such file or directory".

Definition ErrPermission (op path : string) : error :=
  op +:+ " " +:+ path +:+ ": permission denied".

Definition ioutil_ReadFile (filename : string) : M (result (list byte)) :=
  λ w, match files w !! filename with
       | Some data => (Returned (Ok data), w)
       | None => (Returned (Err (ErrNotExist "open" filename)), w)
       end.

Definition os_Open (name : string) : M (result File) :=
  λ w, match files w !! name with
       | Some data => (Returned (Ok {| f_name := name; f_contents := data |}), w)
       | None => (Returned (Err (ErrNotExist "open" name)), w)
       end.

(** [ioutil.WriteFile]: creates or replaces the file; a path that cannot be
    opened for writing is an error and leaves the file system as it was. *)
Definition ioutil_WriteFile (filename : string) (data : list byte) : M (result unit) :=
  λ w, if decide (filename ∈ unwritable w)
       then (Returned (Err (ErrPermission "open" filename)), w)
       else (Returned (Ok tt), set_files (<[filename := data]> (files w)) w).

(** [s[i]] on a slice: a run-time panic when [i] is out of range. *)
Definition slice_at {A : Type} (s : list A) (i : nat) : M A :=
  λ w, match s !! i with
       | Some x => (Returned x, w)
       | None =>
           (Panicked ("runtime error: index out of range [" +:+ itoa i
                      +:+ "] with length " +:+ itoa (length s)), w)
       end.

(** [for _, x := range xs { body x }]. *)
Fixpoint for_range {A : Type} (xs : list A) (body : A → M unit) : M unit :=
  match xs with
  | [] => ret tt
  | x :: rest => body x ;; for_range rest body
  end.

(** *** The API client's methods *)

(** Modelled from the spec: the methods of the API client (package [openai],
    whose source is not embedded here).  Each "performs one request/response
    round trip with no retry, caching, pipelining, or state retained": a call
    is recorded once in the trace and answered by the remote side. *)
Definition client_CreateCompletion (R : Remote) (c : Client) (req : CompletionRequest)
  : M (result CompletionResponse) :=
  λ w, (Returned (api_CreateCompletion R c req), add_call (CallCreateCompletion c req) w).

(** Modelled from the spec: [CreateImage], one round trip like
    [CreateCompletion]. *)
Definition client_CreateImage (R : Remote) (c : Client) (req : ImageRequest)
  : M (result ImageResponse) :=
  λ w, (Returned (api_CreateImage R c req), add_call (CallCreateImage c req) w).

(** Modelled from the spec: [CreateEditImage], one round trip; the request
    carries the open input file. *)
Definition client_CreateEditImage (R : Remote) (c : Client) (req : ImageEditRequest)
  : M (result ImageResponse) :=
  λ w, (Returned (api_CreateEditImage R c req), add_call (CallCreateEditImage c req) w).

(** Modelled from the spec: [CreateTranscription], one round trip; the
    client itself opens the file that [FilePath] names. *)
Definition client_CreateTranscription (R : Remote) (c : Client) (req : AudioRequest)
  : M (result AudioResponse) :=
  λ w, (Returned (api_CreateTranscription R c req (files w !! ar_FilePath req)),
        add_call (CallCreateTranscription c req) w).

(** ** main.go *)

Section Program.

Variable L : Libs.
Variable R : Remote.

Definition getClient : M Client :=
  λ w,
    let key := openaiKey w in
    (do key <- (if decide (key = "") then os_Getenv "OPENAI_API_KEY" else ret key);
     (if decide (key = "")
      then log_Fatal
             "OpenAI API key not found. Set it using --key or OPENAI_API_KEY environment variable"
      else ret tt) ;;
     ret (openai_NewClient key)) w.

Definition strToImageBytes (input : string) : result (list byte) :=
  match json_Unmarshal_ImageData L (bytes_of_string input) with
  | Err err => Err err
  | Ok imageData_Data =>
      match Base64.DecodeString imageData_Data with
      | Err err => Err err
      | Ok decoded =>
          match image_Decode L decoded with
          | Err err => Err err
          | Ok img =>
              match png_Encode L img with
              | Err err => Err err
              | Ok buf => Ok buf
              end
          end
      end
  end.

Definition dialogue (args : list string) : M unit :=
  do client <- getClient;
  do prompt <- slice_at args 0;
  do completion <- client_CreateCompletion R client
       {| cr_Prompt := prompt; cr_Model := "text-davinci-003"; cr_MaxTokens := 5000;
          cr_Temperature := 0; cr_N := 0 |};
  match completion with
  | Err err => log_Fatal err
  | Ok completion =>
      for_range (Choices completion) (λ choice, fmt_Println (Text choice))
  end.

Definition imageRecognition (args : list string) : M unit :=
  do client <- getClient;
  do filename <- slice_at args 0;
  do data <- ioutil_ReadFile filename;
  match data with
  | Err err => log_Fatal err
  | Ok data =>
      let imageBase64 := Base64.EncodeToString data in
      let imageRecogRequest :=
        {| cr_Prompt := "描述这个图片: " +:+ imageBase64; cr_Model := "image-alpha-001";
           cr_MaxTokens := 50; cr_Temperature := 1 # 2; cr_N := 1 |} in
      do result <- client_CreateCompletion R client imageRecogRequest;
      match result with
      | Err err => log_Fatal err
      | Ok result =>
          do choice <- slice_at (Choices result) 0;
          fmt_Println (Text choice)
      end
  end.

Definition imageGeneration (args : list string) : M unit :=
  do client <- getClient;
  do prompt <- slice_at args 0;
  do result <- client_CreateImage R client
       {| ir_Prompt := prompt; ir_N := 1; ir_Size := CreateImageSize256x256 L;
          ir_ResponseFormat := CreateImageResponseFormatB64JSON L;
          ir_User := "Developer" |};
  match result with
  | Err _ => log_Fatal "no result, no image data"
  | Ok result =>
      (if Nat.eqb (length (Data result)) 0 then log_Fatal "" else ret tt) ;;
      do first <- slice_at (Data result) 0;
      match strToImageBytes (B64JSON first) with
      | Err err => log_Fatal err
      | Ok imageBytes =>
          do written <- ioutil_WriteFile "output.png" imageBytes;
          match written with
          | Err err => log_Fatal err
          | Ok _ => fmt_Println "Image saved to output.png"
          end
      end
  end.

(** [defer inputData.Close()] has no effect on the state modelled here (and
    does not run when [log.Fatal] exits). *)
Definition imageEditing (args : list string) : M unit :=
  do client <- getClient;
  do inputFile <- slice_at args 0;
  do instructions <- slice_at args 1;
  do outputFile <- slice_at args 2;
  do inputData <- os_Open inputFile;
  match inputData with
  | Err err => log_Fatal err
  | Ok inputData =>
      do result <- client_CreateEditImage R client
           {| ie_Image := inputData; ie_Prompt := instructions; ie_N := 1;
              ie_Size := CreateImageSize256x256 L |};
      match result with
      | Err err => log_Fatal err
      | Ok result =>
          (if Nat.eqb (length (Data result)) 0
           then log_Fatal "no result, no image edited" else ret tt) ;;
          do first <- slice_at (Data result) 0;
          match strToImageBytes (B64JSON first) with
          | Err err => log_Fatal err
          | Ok bytes =>
              do written <- ioutil_WriteFile outputFile bytes;
              match written with
              | Err err => log_Fatal err
              | Ok _ => fmt_Printf ("Image saved to " +:+ outputFile +:+ String "010" "")
              end
          end
      end
  end.

Definition audioGeneration (args : list string) : M unit :=
  do client <- getClient;
  do text <- slice_at args 0;
  do outputFile <- slice_at args 1;
  do result <- client_CreateCompletion R client
       {| cr_Prompt := text; cr_Model := "whisper-3"; cr_N := 1;
          cr_Temperature := 1 # 2; cr_MaxTokens := 1024 |};
  match result with
  | Err err => log_Fatal err
  | Ok result =>
      do choice <- slice_at (Choices result) 0;
      do written <- ioutil_WriteFile outputFile (bytes_of_string (Text choice));
      match written with
      | Err err => log_Fatal err
      | Ok _ => fmt_Printf ("Audio saved to " +:+ outputFile +:+ String "010" "")
      end
  end.

Definition audioTranscription (args : list string) : M unit :=
  do client <- getClient;
  do filename <- slice_at args 0;
  do result <- client_CreateTranscription R client
       {| ar_FilePath := filename; ar_Model := "whisper-3"; ar_Prompt := "用简体中文";
          ar_Temperature := 1 # 2; ar_Language := "zh" |};
  match result with
  | Err err => log_Fatal err
  | Ok result => fmt_Println (ar_Text result)
  end.

Definition codeGeneration (args : list string) : M unit :=
  do client <- getClient;
  do prompt <- slice_at args 0;
  do result <- client_CreateCompletion R client
       {| cr_Prompt := prompt; cr_MaxTokens := 5000; cr_Model := "davinci-codex-002";
          cr_N := 1; cr_Temperature := 1 # 2 |};
  match result with
  | Err err => log_Fatal err
  | Ok result =>
      do choice <- slice_at (Choices result) 0;
      fmt_Println (Text choice)
  end.

(** *** The command table of [main] *)

(** [cobra.PositionalArgs]. *)
Definition PositionalArgs : Type := list string → result unit.

Definition cobra_ExactArgs (n : nat) : PositionalArgs :=
  λ args,
    if Nat.eqb (length args) n then Ok tt
    else Err ("accepts " +:+ itoa n +:+ " arg(s), received " +:+ itoa (length args)).

(** [cobra.Command], with the fields [main] sets; [Args] is [None] where the
    struct literal leaves it out. *)
Record Command := {
  Use : string;
  Short : string;
  Args : option PositionalArgs;
  Run : list string → M unit;
}.

Definition dialogueCmd : Command :=
  {| Use := "dialogue";
     Short := "Generate text using OpenAI's GPT-3 language model";
     Args := None;
     Run := dialogue |}.

Definition imageRecognitionCmd : Command :=
  {| Use := "image-recognition [filename]";
     Short := "Describe an image using OpenAI's DALL-E image recognition model";
     Args := Some (cobra_ExactArgs 1);
     Run := imageRecognition |}.

Definition imageGenerationCmd : Command :=
  {| Use := "image-generation [prompt]";
     Short := "Generate an image using OpenAI's DALL-E image generation model";
     Args := Some (cobra_ExactArgs 1);
     Run := imageGeneration |}.

Definition imageEditingCmd : Command :=
  {| Use := "image-editing [input file] [instructions] [output file]";
     Short := "Edit an image using OpenAI's DALL-E image editing model";
     Args := Some (cobra_ExactArgs 3);
     Run := imageEditing |}.

Definition audioGenerationCmd : Command :=
  {| Use := "audio-generation [text] [output file]";
     Short := "Generate audio using OpenAI's Jukebox music model";
     Args := Some (cobra_ExactArgs 2);
     Run := audioGeneration |}.

Definition audioTranscriptionCmd : Command :=
  {| Use := "audio-transcription [filename]";
     Short := "Transcribe speech from an audio file using OpenAI's GPT-3 language model";
     Args := Some (cobra_ExactArgs 1);
     Run := audioTranscription |}.

Definition codeGenerationCmd : Command :=
  {| Use := "code-generation [prompt]";
     Short := "Generate code using OpenAI's Codex model";
     Args := Some (cobra_ExactArgs 1);
     Run := codeGeneration |}.

(** The subcommands, in the order of the [AddCommand] calls. *)
Inductive Subcommand :=
| Dialogue | ImageRecognition | ImageGeneration | ImageEditing
| AudioGeneration | AudioTranscription | CodeGeneration.

Definition command_of (sub : Subcommand) : Command :=
  match sub with
  | Dialogue => dialogueCmd
  | ImageRecognition => imageRecognitionCmd
  | ImageGeneration => imageGenerationCmd
  | ImageEditing => imageEditingCmd
  | AudioGeneration => audioGenerationCmd
  | AudioTranscription => audioTranscriptionCmd
  | CodeGeneration => codeGenerationCmd
  end.

(** [c.ValidateArgs]: a command without [Args] accepts any arguments. *)
Definition ValidateArgs (c : Command) (args : list string) : result unit :=
  match Args c with
  | None => Ok tt
  | Some validate => validate args
  end.

(** The commands of [rootCmd], in the order of the [AddCommand] calls. *)
Definition rootCmd_commands : list Command :=
  [dialogueCmd; imageRecognitionCmd; imageGenerationCmd; imageEditingCmd;
   audioGenerationCmd; audioTranscriptionCmd; codeGenerationCmd].

(** [rootCmd.Execute()] on a command line that names subcommand [sub], gives
    [--key] the value [key] (the flag's default is the empty string) and has
    the positional arguments [args]: the persistent flag is stored in
    [openaiKey], the arguments are validated, then the handler runs.  The
    usage text cobra itself prints on standard error when validation fails
    is not part of the state. *)
Definition Execute (sub : Subcommand) (key : string) (args : list string)
  : M (result unit) :=
  λ w,
    let w := set_openaiKey key w in
    match ValidateArgs (command_of sub) args with
    | Err err => (Returned (Err err), w)
    | Ok _ => (Run (command_of sub) args ;; ret (Ok tt)) w
    end.

Definition main (sub : Subcommand) (key : string) (args : list string) : M unit :=
  do err <- Execute sub key args;
  match err with
  | Err err => log_Fatal err
  | Ok _ => ret tt
  end.

End Program.

(** ** Vocabulary of the statements *)

Definition msg_key_not_found : string :=
  "OpenAI API key not found. Set it using --key or OPENAI_API_KEY environment variable".

(** The key an invocation uses, in the words of the specification: the value
    of [--key] if it is non-empty, otherwise the value of [OPENAI_API_KEY]. *)
Definition resolved_key_spec (flag : string) (env : gmap string string) : string :=
  if decide (flag = "") then default "" (env !! "OPENAI_API_KEY") else flag.

(** The response transformation in the words of the specification:
    base64-decode the payload, re-encode the decoded image as PNG. *)
Definition b64_then_png_spec (L : Libs) (payload : string) : result (list byte) :=
  result_bind (Base64.DecodeString payload)
    (λ decoded, result_bind (image_Decode L decoded) (png_Encode L)).

(** What [fmt.Println] prints for each choice of a completion, in order. *)
Fixpoint lines (choices : list CompletionChoice) : string :=
  match choices with
  | [] => ""
  | choice :: rest => (Text choice +:+ String "010" "") +:+ lines rest
  end.

Definition call_client (c : ApiCall) : Client :=
  match c with
  | CallCreateCompletion cl _ | CallCreateImage cl _
  | CallCreateEditImage cl _ | CallCreateTranscription cl _ => cl
  end.

(** The error the remote side answers to a call, if it answers one. *)
Definition api_error (R : Remote) (w : World) (c : ApiCall) : option error :=
  match c with
  | CallCreateCompletion cl req =>
      match api_CreateCompletion R cl req with Err e => Some e | Ok _ => None end
  | CallCreateImage cl req =>
      match api_CreateImage R cl req with Err e => Some e | Ok _ => None end
  | CallCreateEditImage cl req =>
      match api_CreateEditImage R cl req with Err e => Some e | Ok _ => None end
  | CallCreateTranscription cl req =>
      match api_CreateTranscription R cl req (files w !! ar_FilePath req) with
      | Err e => Some e
      | Ok _ => None
      end
  end.

(** The file a subcommand is meant to write, and the files it is meant to
    read, as its usage line names them. *)
Definition designated_output (sub : Subcommand) (args : list string) : option string :=
  match sub with
  | ImageGeneration => Some "output.png"
  | ImageEditing => args !! 2
  | AudioGeneration => args !! 1
  | _ => None
  end.

Definition named_inputs (sub : Subcommand) (args : list string) : list string :=
  match sub with
  | ImageRecognition | ImageEditing | AudioTranscription =>
      match args with
      | f :: _ => [f]
      | [] => []
      end
  | _ => []
  end.

(** Two worlds that differ at most in the files outside [paths] (and in the
    flag variable, which [Execute] overwrites). *)
Definition same_outside_files (paths : list string) (w1 w2 : World) : Prop :=
  environ w1 = environ w2 ∧ unwritable w1 = unwritable w2 ∧ stdout w1 = stdout w2
  ∧ logged w1 = logged w2 ∧ calls w1 = calls w2
  ∧ ∀ p, p ∈ paths → files w1 !! p = files w2 !! p.

(** The request each handler builds. *)
Definition dialogue_request (prompt : string) : CompletionRequest :=
  {| cr_Prompt := prompt; cr_Model := "text-davinci-003"; cr_MaxTokens := 5000;
     cr_Temperature := 0; cr_N := 0 |}.

Definition imageRecognition_request (data : list byte) : CompletionRequest :=
  {| cr_Prompt := "描述这个图片: " +:+ Base64.EncodeToString data;
     cr_Model := "image-alpha-001"; cr_MaxTokens := 50; cr_Temperature := 1 # 2;
     cr_N := 1 |}.

Definition imageGeneration_request (L : Libs) (prompt : string) : ImageRequest :=
  {| ir_Prompt := prompt; ir_N := 1; ir_Size := CreateImageSize256x256 L;
     ir_ResponseFormat := CreateImageResponseFormatB64JSON L; ir_User := "Developer" |}.

Definition imageEditing_request (L : Libs) (inputFile : string) (data : list byte)
    (instructions : string) : ImageEditRequest :=
  {| ie_Image := {| f_name := inputFile; f_contents := data |};
     ie_Prompt := instructions; ie_N := 1; ie_Size := CreateImageSize256x256 L |}.

Definition audioGeneration_request (text : string) : CompletionRequest :=
  {| cr_Prompt := text; cr_Model := "whisper-3"; cr_N := 1; cr_Temperature := 1 # 2;
     cr_MaxTokens := 1024 |}.

Definition codeGeneration_request (prompt : string) : CompletionRequest :=
  {| cr_Prompt := prompt; cr_MaxTokens := 5000; cr_Model := "davinci-codex-002";
     cr_N := 1; cr_Temperature := 1 # 2 |}.

(** The number of arguments a usage line names: its bracketed placeholders. *)
Definition usage_arity (c : Command) : nat :=
  length (List.filter (Byte.eqb x5b) (bytes_of_string (Use c))).

Definition msg_index_out_of_range_0 : string :=
  "runtime error: index out of range [0] with length 0".

(** The one API call a subcommand can issue with client [cl] from world [w]:
    the method and the request its handler builds from the arguments (and,
    for image recognition and image editing, from the input file). *)
Definition expected_call (L : Libs) (sub : Subcommand) (args : list string) (w : World)
    (cl : Client) : option ApiCall :=
  match sub, args with
  | Dialogue, prompt :: _ => Some (CallCreateCompletion cl (dialogue_request prompt))
  | ImageRecognition, [filename] =>
      (λ data, CallCreateCompletion cl (imageRecognition_request data))
        <$> files w !! filename
  | ImageGeneration, [prompt] =>
      Some (CallCreateImage cl (imageGeneration_request L prompt))
  | ImageEditing, [inputFile; instructions; _] =>
      (λ data, CallCreateEditImage cl (imageEditing_request L inputFile data instructions))
        <$> files w !! inputFile
  | AudioGeneration, [text; _] =>
      Some (CallCreateCompletion cl (audioGeneration_request text))
  | AudioTranscription, [filename] =>
      Some (CallCreateTranscription cl
              {| ar_FilePath := filename; ar_Model := "whisper-3";
                 ar_Prompt := "用简体中文"; ar_Temperature := 1 # 2;
                 ar_Language := "zh" |})
  | CodeGeneration, [prompt] =>
      Some (CallCreateCompletion cl (codeGeneration_request prompt))
  | _, _ => None
  end.

(** The bytes a writing subcommand is to put in its designated output, with
    client [cl] from world [w]: the transformed first image of the answer to
    its call, or the text of the first choice; [None] when the call fails or
    answers nothing to write. *)
Definition expected_output (L : Libs) (R : Remote) (sub : Subcommand)
    (args : list string) (w : World) (cl : Client) : option (list byte) :=
  let first_image (answer : result ImageResponse) :=
    match answer with
    | Ok {| Data := first :: _ |} =>
        match strToImageBytes L (B64JSON first) with
        | Ok bytes => Some bytes
        | Err _ => None
        end
    | _ => None
    end in
  match sub, args with
  | ImageGeneration, [prompt] =>
      first_image (api_CreateImage R cl (imageGeneration_request L prompt))
  | ImageEditing, [inputFile; instructions; _] =>
      match files w !! inputFile with
      | Some data =>
          first_image (api_CreateEditImage R cl
                         (imageEditing_request L inputFile data instructions))
      | None => None
      end
  | AudioGeneration, [text; _] =>
      match api_CreateCompletion R cl (audioGeneration_request text) with
      | Ok {| Choices := first :: _ |} => Some (bytes_of_string (Text first))
      | _ => None
      end
  | _, _ => None
  end.

(** ** A concrete platform, for evaluating the program

    [Sample.libs] stands in for the libraries: a JSON decoder for documents
    of the one shape [{"data":"..."}] (without escapes), and an image codec
    that accepts the byte strings that carry the PNG signature and re-encodes
    them unchanged.  [Sample.remote] answers by the prompt of the request. *)

Module Sample.

Definition quote : byte := x22.

(** A 1x1 grey PNG (67 bytes), in base64. *)
Definition png_b64 : string :=
  "iVBORw0KGgoAAAANSUhEUgAAAAEAAAABCAAAAAA6fptVAAAACklEQVR4nGNgAAAAAgABSK+kcQAAAABJRU5ErkJggg==".

Definition png_bytes : list byte :=
  match Base64.DecodeString png_b64 with
  | Ok b => b
  | Err _ => []
  end.

Definition png_signature : list byte := [x89; x50; x4e; x47; x0d; x0a; x1a; x0a].

Fixpoint strip_prefix (p s : list byte) : option (list byte) :=
  match p, s with
  | [], _ => Some s
  | a :: p', b :: s' => if Byte.eqb a b then strip_prefix p' s' else None
  | _ :: _, [] => None
  end.

(** [{"data":"] and ["}]. *)
Definition json_open : list byte :=
  [x7b; quote] ++ bytes_of_string "data" ++ [quote; x3a; quote].
Definition json_close : list byte := [quote; x7d].

Definition json_document (data : string) : string :=
  string_of_bytes (json_open ++ bytes_of_string data ++ json_close).

(** A byte that stands for itself inside a JSON string. *)
Definition plain (c : byte) : bool :=
  let n := Byte.to_N c in
  (32 <=? n)%N && (n <? 127)%N && negb (Byte.eqb c quote) && negb (Byte.eqb c x5c).

(** A byte that can begin a JSON value (or is white space before one). *)
Definition begins_value (c : byte) : bool :=
  existsb (Byte.eqb c)
    (x7b :: x5b :: quote :: x20 :: x09 :: x0a :: x0d :: bytes_of_string "-0123456789tfn").

Definition decode_document (input : list byte) : result string :=
  match input with
  | [] => Err "unexpected end of JSON input"
  | c :: _ =>
      if negb (begins_value c)
      then Err ("invalid character '" +:+ string_of_bytes [c]
                +:+ "' looking for beginning of value")
      else
        match strip_prefix json_open input with
        | Some rest =>
            let body := firstn (length rest - 2) rest in
            match strip_prefix json_close (skipn (length rest - 2) rest) with
            | Some [] =>
                if forallb plain body then Ok (string_of_bytes body)
                else Err "json: document outside the sample decoder"
            | _ => Err "json: document outside the sample decoder"
            end
        | None => Err "json: document outside the sample decoder"
        end
  end.

Definition decode_image (data : list byte) : result (list byte) :=
  match strip_prefix png_signature data with
  | Some _ => Ok data
  | None => Err "image: unknown format"
  end.

Definition encode_png (img : list byte) : result (list byte) := Ok img.

Definition libs : Libs :=
  {| Image := list byte;
     json_Unmarshal_ImageData := decode_document;
     image_Decode := decode_image;
     png_Encode := encode_png;
     CreateImageSize256x256 := "256x256";
     CreateImageResponseFormatB64JSON := "b64_json" |}.

Definition images_for (prompt : string) : result ImageResponse :=
  if decide (prompt = "fail") then Err "error, status code: 401"
  else if decide (prompt = "none") then Ok {| Data := [] |}
  else if decide (prompt = "raw") then Ok {| Data := [ {| B64JSON := png_b64 |} ] |}
  else if decide (prompt = "two")
       then Ok {| Data := [ {| B64JSON := "garbage" |};
                            {| B64JSON := json_document png_b64 |} ] |}
  else Ok {| Data := [ {| B64JSON := json_document png_b64 |} ] |}.

Definition remote : Remote :=
  {| api_CreateCompletion := λ _ req,
       if decide (cr_Prompt req = "fail") then Err "error, status code: 401"
       else if decide (cr_Prompt req = "none") then Ok {| Choices := [] |}
       else Ok {| Choices := [ {| Text := "Hello" |}; {| Text := "World" |} ] |};
     api_CreateImage := λ _ req, images_for (ir_Prompt req);
     api_CreateEditImage := λ _ req, images_for (ie_Prompt req);
     api_CreateTranscription := λ _ req data,
       match data with
       | Some _ => Ok {| ar_Text := "transcript" |}
       | None => Err (ErrNotExist "open" (ar_FilePath req))
       end |}.

(** A fresh process: the key comes from the environment, one input file. *)
Definition world : World :=
  {| openaiKey := "";
     environ := {[ "OPENAI_API_KEY" := "sk-env" ]};
     files := {[ "in.png" := png_bytes ]};
     unwritable := ∅;
     stdout := "";
     logged := [];
     calls := [] |}.

(** The same, in a directory where [output.png] cannot be written. *)
Definition world_readonly : World :=
  {| openaiKey := "";
     environ := {[ "OPENAI_API_KEY" := "sk-env" ]};
     files := {[ "in.png" := png_bytes ]};
     unwritable := {[ "output.png" ]};
     stdout := "";
     logged := [];
     calls := [] |}.

(** The same as [world], without a key in the environment. *)
Definition world_nokey : World :=
  {| openaiKey := "";
     environ := ∅;
     files := {[ "in.png" := png_bytes ]};
     unwritable := ∅;
     stdout := "";
     logged := [];
     calls := [] |}.

End Sample.

(** ** encoding/base64 on the test vectors of RFC 4648 *)

Example Base64_encode_vectors :
  map (λ s, Base64.EncodeToString (bytes_of_string s))
    [""; "f"; "fo"; "foo"; "foob"; "fooba"; "foobar"]
  = [""; "Zg=="; "Zm8="; "Zm9v"; "Zm9vYg=="; "Zm9vYmE="; "Zm9vYmFy"].
Proof. reflexivity. Qed.

Example Base64_decode_vectors :
  map Base64.DecodeString
    [""; "Zg=="; "Zm8="; "Zm9v"; "Zm9vYg=="; "Zm9vYmE="; "Zm9vYmFy"]
  = map (λ s, Ok (bytes_of_string s))
      [""; "f"; "fo"; "foo"; "foob"; "fooba"; "foobar"].
Proof. reflexivity. Qed.

(** Line breaks are skipped; missing or misplaced padding and bytes outside
    the alphabet are errors that carry the offset. *)
Example Base64_decode_corrupt :
  map Base64.DecodeString
    ["Zm9v" +:+ String "010" "YmFy"; "Zm9vYg"; "Zg=a"; "Zg==Zg=="; "Z"; "=Zg="; "{}"]
  = [Ok (bytes_of_string "foobar");
     Err "illegal base64 data at input byte 4";
     Err "illegal base64 data at input byte 2";
     Err "illegal base64 data at input byte 4";
     Err "illegal base64 data at input byte 0";
     Err "illegal base64 data at input byte 0";
     Err "illegal base64 data at input byte 0"].
Proof. reflexivity. Qed.

Lemma command_of_enumerates (L : Libs) (R : Remote) :
  map (command_of L R)
    [Dialogue; ImageRecognition; ImageGeneration; ImageEditing;
     AudioGeneration; AudioTranscription; CodeGeneration]
  = rootCmd_commands L R.
Proof. reflexivity. Qed.

(** ** Reasoning about runs *)

Lemma append_nil_r (s : string) : s +:+ "" = s.
Proof.
  induction s as [|c s IH]; [reflexivity |].
  change (String c (s +:+ "") = String c s). now rewrite IH.
Qed.

Lemma append_assoc (s t u : string) : (s +:+ t) +:+ u = s +:+ (t +:+ u).
Proof.
  induction s as [|c s IH]; [reflexivity |].
  change (String c ((s +:+ t) +:+ u) = String c (s +:+ (t +:+ u))). now rewrite IH.
Qed.

Lemma add_stdout_add_stdout (s t : string) (w : World) :
  add_stdout t (add_stdout s w) = add_stdout (s +:+ t) w.
Proof. unfold add_stdout; simpl. now rewrite append_assoc. Qed.

(** The loop of [dialogue] prints the lines of the choices and returns. *)
Lemma for_range_Println (choices : list CompletionChoice) (w : World) :
  for_range choices (λ choice, fmt_Println (Text choice)) w
  = (Returned tt, add_stdout (lines choices) w).
Proof.
  revert w; induction choices as [|choice rest IH]; intros w.
  - destruct w; unfold add_stdout; simpl. now rewrite append_nil_r.
  - simpl. unfold bind, fmt_Println at 1. rewrite IH.
    now rewrite add_stdout_add_stdout.
Qed.

(** [getClient] computes the key of the specification. *)
Lemma getClient_run (w : World) :
  getClient w =
    if decide (resolved_key_spec (openaiKey w) (environ w) = "")
    then (Exited 1, add_logged msg_key_not_found w)
    else (Returned (openai_NewClient (resolved_key_spec (openaiKey w) (environ w))), w).
Proof.
  unfold getClient, resolved_key_spec, bind, os_Getenv, ret, log_Fatal.
  destruct (decide (openaiKey w = "")) as [Hk|Hk]; simpl.
  - destruct (decide (default "" (environ w !! "OPENAI_API_KEY") = "")); reflexivity.
  - destruct (decide (openaiKey w = "")); [contradiction | reflexivity].
Qed.

Lemma getClient_resolved (w : World) :
  resolved_key_spec (openaiKey w) (environ w) ≠ "" →
  getClient w = (Returned (openai_NewClient (resolved_key_spec (openaiKey w) (environ w))), w).
Proof. intros H. rewrite getClient_run. now destruct (decide _). Qed.

Lemma getClient_unresolved (w : World) :
  resolved_key_spec (openaiKey w) (environ w) = "" →
  getClient w = (Exited 1, add_logged msg_key_not_found w).
Proof. intros H. rewrite getClient_run. now destruct (decide _). Qed.

(** Unfold a run of [main] down to the library actions. *)
Ltac unfold_main :=
  unfold main, Execute, ValidateArgs;
  cbn [command_of Args Run dialogueCmd imageRecognitionCmd imageGenerationCmd
       imageEditingCmd audioGenerationCmd audioTranscriptionCmd codeGenerationCmd];
  unfold cobra_ExactArgs, dialogue, imageRecognition, imageGeneration, imageEditing,
    audioGeneration, audioTranscription, codeGeneration;
  unfold bind;
  rewrite ?getClient_run;
  cbn [openaiKey environ set_openaiKey].

Ltac unfold_actions :=
  unfold slice_at, ret, log_Fatal, client_CreateCompletion, client_CreateImage,
    client_CreateEditImage, client_CreateTranscription, ioutil_ReadFile,
    ioutil_WriteFile, os_Open, fmt_Printf;
  simpl.

(** Case analysis on the innermost scrutinee of the goal. *)
Ltac case_inner :=
  match goal with
  | |- context [match ?x with _ => _ end] =>
      lazymatch x with
      | context [match _ with _ => _ end] => fail
      | _ => destruct x eqn:?
      end
  end.

Ltac split_args args :=
  destruct args as [|? [|? [|? [|? ?]]]].

Ltac run_all :=
  repeat (first [rewrite for_range_Println | case_inner]; simpl in *; try discriminate);
  unfold fmt_Println; simpl.

Lemma app_self_inv {A : Type} (l : list A) (x : A) : l = l ++ [x] → False.
Proof.
  intros H. apply (f_equal length) in H. rewrite length_app in H. simpl in H. lia.
Qed.

Lemma app_last_inv {A : Type} (l : list A) (x y : A) : l ++ [x] = l ++ [y] → x = y.
Proof. intros H. apply app_inv_head in H. now inversion H. Qed.

(** *** The response transformation *)

(** C1 (as amended). [strToImageBytes] first decodes its input as a JSON
    document and takes the [data] member; it is that member, not the payload
    itself, that goes through the pipeline of the specification
    (base64-decode, decode the image, re-encode it as PNG).  It succeeds
    exactly when the JSON step and then the pipeline succeed, and returns the
    PNG bytes; the first error met is the one returned. *)
Theorem C1_strToImageBytes_json_then_pipeline (L : Libs) (input : string) :
  strToImageBytes L input
  = result_bind (json_Unmarshal_ImageData L (bytes_of_string input))
      (b64_then_png_spec L)
  ∧ (∀ out,
       strToImageBytes L input = Ok out ↔
       ∃ data decoded img,
         json_Unmarshal_ImageData L (bytes_of_string input) = Ok data
         ∧ Base64.DecodeString data = Ok decoded
         ∧ image_Decode L decoded = Ok img
         ∧ png_Encode L img = Ok out)
  ∧ (∀ e, json_Unmarshal_ImageData L (bytes_of_string input) = Err e →
          strToImageBytes L input = Err e).
Proof.
  unfold strToImageBytes, b64_then_png_spec, result_bind.
  split; [|split].
  - destruct (json_Unmarshal_ImageData L _) as [data|]; [|reflexivity].
    destruct (Base64.DecodeString data) as [decoded|]; [|reflexivity].
    destruct (image_Decode L decoded) as [img|]; [|reflexivity].
    now destruct (png_Encode L img).
  - intros out. split.
    + destruct (json_Unmarshal_ImageData L _) as [data|]; [|discriminate].
      destruct (Base64.DecodeString data) as [decoded|] eqn:Hb; [|discriminate].
      destruct (image_Decode L decoded) as [img|] eqn:Hi; [|discriminate].
      destruct (png_Encode L img) as [buf|] eqn:Hp; [|discriminate].
      intros [= <-]. now exists data, decoded, img.
    + intros (data & decoded & img & -> & -> & -> & ->). reflexivity.
  - now intros e ->.
Qed.

(** C1, the claim as stated fails: a payload that is the base64 text of a PNG
    goes through the pipeline of the specification but is refused by
    [strToImageBytes] (it is not a JSON document), and the JSON document
    that [strToImageBytes] accepts is not base64 text. *)
Lemma C1_counterexample :
  b64_then_png_spec Sample.libs Sample.png_b64 = Ok Sample.png_bytes
  ∧ strToImageBytes Sample.libs Sample.png_b64
    = Err "invalid character 'i' looking for beginning of value"
  ∧ strToImageBytes Sample.libs (Sample.json_document Sample.png_b64)
    = Ok Sample.png_bytes
  ∧ b64_then_png_spec Sample.libs (Sample.json_document Sample.png_b64)
    = Err "illegal base64 data at input byte 0".
Proof. repeat split; vm_compute; reflexivity. Qed.

Lemma C1_witness :
  strToImageBytes Sample.libs (Sample.json_document Sample.png_b64)
  = Ok Sample.png_bytes.
Proof.
  apply (proj1 (proj2 (C1_strToImageBytes_json_then_pipeline Sample.libs
                         (Sample.json_document Sample.png_b64)))).
  exists Sample.png_b64, Sample.png_bytes, Sample.png_bytes.
  repeat split; vm_compute; reflexivity.
Defined.

(** *** The API key *)

(** C2. For every subcommand invocation the API key is the value of [--key]
    if it is non-empty, otherwise the value of [OPENAI_API_KEY]:
    [getClient] returns the client of that key, every API call of the run
    carries it, and if both are empty the program exits with status 1 after
    logging a message, having issued no API call (the message is the
    key-not-found one whenever the arguments passed validation). *)
Theorem C2_key_resolution (L : Libs) (R : Remote) (sub : Subcommand)
    (key : string) (args : list string) (w : World) :
  let k := resolved_key_spec key (environ w) in
  let w0 := set_openaiKey key w in
  let run := main L R sub key args w in
  (key ≠ "" → k = key)
  ∧ (key = "" → k = default "" (environ w !! "OPENAI_API_KEY"))
  ∧ (k ≠ "" → getClient w0 = (Returned (openai_NewClient k), w0))
  ∧ (∀ c, c ∈ calls run.2 → c ∈ calls w ∨ call_client c = openai_NewClient k)
  ∧ (k = "" →
     run.1 = Exited 1 ∧ calls run.2 = calls w
     ∧ ∃ msg, logged run.2 = logged w ++ [msg]
              ∧ (ValidateArgs (command_of L R sub) args = Ok tt →
                 msg = msg_key_not_found)).
Proof.
  intros k w0 run. subst k w0 run.
  split; [|split; [|split; [|split]]].
  - intros Hk. unfold resolved_key_spec. now destruct (decide _).
  - intros Hk. unfold resolved_key_spec. now destruct (decide _).
  - intros Hk. now rewrite getClient_resolved.
  - destruct sub; split_args args; unfold_main; simpl; unfold_actions; run_all;
      (let call := fresh "call" in
       let Hc := fresh "Hcall" in
       intros call Hc; simpl in Hc; rewrite ?elem_of_app, ?list_elem_of_singleton in Hc;
       first [ left; exact Hc
             | destruct Hc as [Hc|Hc]; [left; exact Hc | right; now subst call] ]).
  - intros Hk.
    destruct sub; split_args args; unfold_main; simpl; unfold_actions;
      rewrite ?Hk; simpl; (split; [reflexivity | split; [reflexivity |]]);
      eexists; (split; [reflexivity | intros Hv; simpl in Hv; congruence]).
Qed.

Lemma C2_witness :
  getClient (set_openaiKey "" Sample.world)
  = (Returned (openai_NewClient "sk-env"), set_openaiKey "" Sample.world)
  ∧ (main Sample.libs Sample.remote Dialogue "" ["hi"] Sample.world_nokey).1 = Exited 1
  ∧ calls (main Sample.libs Sample.remote Dialogue "" ["hi"] Sample.world_nokey).2 = []
  ∧ logged (main Sample.libs Sample.remote Dialogue "" ["hi"] Sample.world_nokey).2
    = [msg_key_not_found].
Proof.
  split.
  - apply (C2_key_resolution Sample.libs Sample.remote Dialogue "" ["hi"] Sample.world).
    vm_compute. discriminate.
  - destruct (C2_key_resolution Sample.libs Sample.remote Dialogue "" ["hi"]
                Sample.world_nokey) as (_ & _ & _ & _ & Hexit).
    destruct (Hexit ltac:(vm_compute; reflexivity)) as (Ho & Hc & msg & Hl & Hm).
    rewrite Ho, Hc, Hl, (Hm eq_refl). repeat split; reflexivity.
Defined.

(** *** Dialogue *)

(** C6. A dialogue invocation whose API call succeeds returns after printing
    the text of every choice of the completion, in response order, one per
    line, and nothing else; with no choices it prints nothing and returns. *)
Theorem C6_dialogue_prints_choices (L : Libs) (R : Remote) (key prompt : string)
    (rest : list string) (w : World) (completion : CompletionResponse) :
  let k := resolved_key_spec key (environ w) in
  let call := CallCreateCompletion (openai_NewClient k) (dialogue_request prompt) in
  k ≠ "" →
  api_CreateCompletion R (openai_NewClient k) (dialogue_request prompt) = Ok completion →
  main L R Dialogue key (prompt :: rest) w
  = (Returned tt,
     add_stdout (lines (Choices completion)) (add_call call (set_openaiKey key w)))
  ∧ stdout (main L R Dialogue key (prompt :: rest) w).2
    = stdout w +:+ lines (Choices completion)
  ∧ (Choices completion = [] →
     stdout (main L R Dialogue key (prompt :: rest) w).2 = stdout w).
Proof.
  intros k call Hk Hapi. subst k call.
  assert (Hrun : main L R Dialogue key (prompt :: rest) w
    = (Returned tt,
       add_stdout (lines (Choices completion))
         (add_call (CallCreateCompletion
                      (openai_NewClient (resolved_key_spec key (environ w)))
                      (dialogue_request prompt))
            (set_openaiKey key w)))).
  { unfold_main. simpl. destruct (decide _) as [|_]; [contradiction|].
    unfold_actions. fold (dialogue_request prompt). rewrite Hapi.
    now rewrite for_range_Println. }
  rewrite Hrun. split; [reflexivity | split; [reflexivity |]].
  intros ->. simpl. apply append_nil_r.
Qed.

Lemma C6_witness :
  main Sample.libs Sample.remote Dialogue "" ["hi"] Sample.world
  = (Returned tt,
     add_stdout ("Hello" +:+ String "010" "World" +:+ String "010" "")
       (add_call (CallCreateCompletion (openai_NewClient "sk-env") (dialogue_request "hi"))
          (set_openaiKey "" Sample.world))).
Proof.
  refine (proj1 (C6_dialogue_prints_choices Sample.libs Sample.remote "" "hi" []
                   Sample.world
                   {| Choices := [ {| Text := "Hello" |}; {| Text := "World" |} ] |}
                   _ _)).
  - vm_compute. discriminate.
  - vm_compute. reflexivity.
Defined.

(** *** Argument counts *)

(** C9. [dialogueCmd] registers no argument constraint and accepts any
    arguments, every other command registers [cobra.ExactArgs] with the
    number of arguments its usage line names; with no positional argument
    (and a key), the dialogue handler panics on [args[0]], out of range; for
    every other subcommand a wrong argument count makes [Execute] return the
    validation error, which [main] logs before exiting: the handler did not
    run (nothing printed, no file touched, no API call). *)
Theorem C9_dialogue_unchecked_args (L : Libs) (R : Remote) (key : string) (w : World) :
  Args (command_of L R Dialogue) = None
  ∧ (∀ args, ValidateArgs (command_of L R Dialogue) args = Ok tt)
  ∧ (resolved_key_spec key (environ w) ≠ "" →
     main L R Dialogue key [] w
     = (Panicked msg_index_out_of_range_0, set_openaiKey key w))
  ∧ (∀ sub, sub ≠ Dialogue →
       Args (command_of L R sub) = Some (cobra_ExactArgs (usage_arity (command_of L R sub))))
  ∧ (∀ sub args, sub ≠ Dialogue →
       length args ≠ usage_arity (command_of L R sub) →
       let err := "accepts " +:+ itoa (usage_arity (command_of L R sub))
                  +:+ " arg(s), received " +:+ itoa (length args) in
       main L R sub key args w = (Exited 1, add_logged err (set_openaiKey key w))).
Proof.
  split; [reflexivity | split; [reflexivity | split; [|split]]].
  - intros Hk. unfold_main. simpl. destruct (decide _) as [|_]; [contradiction|].
    reflexivity.
  - intros sub Hsub. destruct sub; try contradiction; reflexivity.
  - intros sub args Hsub.
    destruct sub; try contradiction;
      unfold main, Execute, ValidateArgs, bind; simpl Args;
      match goal with
      | |- context [usage_arity ?c] =>
          let n := eval vm_compute in (usage_arity c) in
          change (usage_arity c) with n
      end;
      unfold cobra_ExactArgs;
      intros Hlen; cbv zeta;
      match goal with
      | |- context [Nat.eqb ?a ?b] =>
          destruct (Nat.eqb_spec a b) as [Heq|_]; [contradiction|]
      end;
      reflexivity.
Qed.

Lemma C9_witness :
  main Sample.libs Sample.remote Dialogue "sk-flag" [] Sample.world
  = (Panicked msg_index_out_of_range_0, set_openaiKey "sk-flag" Sample.world)
  ∧ main Sample.libs Sample.remote CodeGeneration "sk-flag" [] Sample.world
    = (Exited 1,
       add_logged "accepts 1 arg(s), received 0" (set_openaiKey "sk-flag" Sample.world)).
Proof.
  pose proof (C9_dialogue_unchecked_args Sample.libs Sample.remote "sk-flag" Sample.world)
    as (_ & _ & Hpanic & _ & Hothers).
  split.
  - apply Hpanic. vm_compute. discriminate.
  - apply (Hothers CodeGeneration []); [discriminate | vm_compute; discriminate].
Defined.

(** *** Responses without choices *)

Ltac close_choice_case H :=
  first [ reflexivity
        | discriminate H
        | exfalso; apply H; reflexivity
        | intros ?; simpl; try destruct (decide _); discriminate ].

(** C10. [imageRecognition], [audioGeneration] and [codeGeneration] read
    [result.Choices[0]] unchecked: when the API call succeeds with an empty
    choice list the handler panics (index out of range), and when the list
    is not empty it does not panic.  The success path is total exactly under
    the precondition that the response has a choice. *)
Theorem C10_first_choice_unchecked (L : Libs) (R : Remote) (key : string) (w : World) :
  let k := resolved_key_spec key (environ w) in
  let panics (run : outcome unit * World) := run.1 = Panicked msg_index_out_of_range_0 in
  let no_panic (run : outcome unit * World) := ∀ msg, run.1 ≠ Panicked msg in
  k ≠ "" →
  (∀ filename data result,
     files w !! filename = Some data →
     api_CreateCompletion R (openai_NewClient k) (imageRecognition_request data)
     = Ok result →
     (Choices result = [] → panics (main L R ImageRecognition key [filename] w))
     ∧ (Choices result ≠ [] → no_panic (main L R ImageRecognition key [filename] w)))
  ∧ (∀ text outputFile result,
       api_CreateCompletion R (openai_NewClient k) (audioGeneration_request text)
       = Ok result →
       (Choices result = [] →
        panics (main L R AudioGeneration key [text; outputFile] w))
       ∧ (Choices result ≠ [] →
          no_panic (main L R AudioGeneration key [text; outputFile] w)))
  ∧ (∀ prompt result,
       api_CreateCompletion R (openai_NewClient k) (codeGeneration_request prompt)
       = Ok result →
       (Choices result = [] → panics (main L R CodeGeneration key [prompt] w))
       ∧ (Choices result ≠ [] → no_panic (main L R CodeGeneration key [prompt] w))).
Proof.
  intros k panics no_panic Hk. subst k panics no_panic. cbv beta.
  split; [|split].
  - intros filename data [choices] Hfile Hapi. unfold_main. simpl.
    destruct (decide _) as [|_]; [contradiction|].
    unfold_actions. rewrite Hfile. simpl.
    fold (imageRecognition_request data). rewrite Hapi. simpl.
    destruct choices; split; intros H; close_choice_case H.
  - intros text outputFile [choices] Hapi. unfold_main. simpl.
    destruct (decide _) as [|_]; [contradiction|].
    unfold_actions. fold (audioGeneration_request text). rewrite Hapi. simpl.
    destruct choices; split; intros H; close_choice_case H.
  - intros prompt [choices] Hapi. unfold_main. simpl.
    destruct (decide _) as [|_]; [contradiction|].
    unfold_actions. fold (codeGeneration_request prompt). rewrite Hapi. simpl.
    destruct choices; split; intros H; close_choice_case H.
Qed.

Lemma C10_witness :
  (main Sample.libs Sample.remote CodeGeneration "sk-flag" ["none"] Sample.world).1
  = Panicked msg_index_out_of_range_0.
Proof.
  pose proof (C10_first_choice_unchecked Sample.libs Sample.remote "sk-flag" Sample.world)
    as H.
  cbv zeta in H.
  destruct (H ltac:(vm_compute; discriminate)) as (_ & _ & Hcode).
  apply (Hcode "none" {| Choices := [] |}); vm_compute; reflexivity.
Defined.

(** *** Errors of the remote side *)

(** C3, what the code does.  When the API call of a run is answered with an
    error [e], the program exits with status 1 after logging one message,
    having printed nothing and left every file as it was.  For six
    subcommands the message is [e]; [imageGeneration] drops [e] and logs the
    fixed text ["no result, no image data"]. *)
Theorem C3_api_error (L : Libs) (R : Remote) (sub : Subcommand) (key : string)
    (args : list string) (w : World) (c : ApiCall) (e : error) :
  let run := main L R sub key args w in
  calls run.2 = calls w ++ [c] →
  api_error R w c = Some e →
  run.1 = Exited 1
  ∧ files run.2 = files w
  ∧ stdout run.2 = stdout w
  ∧ logged run.2
    = logged w ++ [match sub with
                   | ImageGeneration => "no result, no image data"
                   | _ => e
                   end].
Proof.
  intros run. subst run. revert c e.
  destruct sub; split_args args; unfold_main; simpl; unfold_actions; run_all;
    intros the_call the_error Hcalls Herr; simpl in Hcalls;
    try (destruct (app_self_inv _ _ Hcalls));
    apply app_last_inv in Hcalls; subst the_call; simpl in Herr;
    repeat match goal with
      | H : _ = Ok _ |- _ => rewrite H in Herr
      | H : _ = Err _ |- _ => rewrite H in Herr
      end;
    try discriminate; try (injection Herr as <-); auto.
Qed.

(** C3 at image generation: the API's error is answered with a fixed message
    that does not mention it. *)
Lemma C3_witness :
  (main Sample.libs Sample.remote ImageGeneration "sk-flag" ["fail"] Sample.world).1
  = Exited 1
  ∧ files (main Sample.libs Sample.remote ImageGeneration "sk-flag" ["fail"]
             Sample.world).2
    = files Sample.world
  ∧ stdout (main Sample.libs Sample.remote ImageGeneration "sk-flag" ["fail"]
              Sample.world).2
    = ""
  ∧ logged (main Sample.libs Sample.remote ImageGeneration "sk-flag" ["fail"]
              Sample.world).2
    = ["no result, no image data"].
Proof.
  apply (C3_api_error Sample.libs Sample.remote ImageGeneration "sk-flag" ["fail"]
           Sample.world
           (CallCreateImage (openai_NewClient "sk-flag")
              (imageGeneration_request Sample.libs "fail"))
           "error, status code: 401").
  - vm_compute. reflexivity.
  - vm_compute. reflexivity.
Defined.

(** C7, what the code does.  When the API call succeeds with no image, both
    handlers exit with status 1 without writing a file; [imageEditing] logs
    ["no result, no image edited"], [imageGeneration] calls [log.Fatal()]
    with no argument and so logs an empty message. *)
Theorem C7_no_images (L : Libs) (R : Remote) (key : string) (w : World) :
  let k := resolved_key_spec key (environ w) in
  k ≠ "" →
  (∀ prompt result,
     api_CreateImage R (openai_NewClient k) (imageGeneration_request L prompt)
     = Ok result →
     Data result = [] →
     main L R ImageGeneration key [prompt] w
     = (Exited 1,
        add_logged ""
          (add_call (CallCreateImage (openai_NewClient k)
                       (imageGeneration_request L prompt))
             (set_openaiKey key w))))
  ∧ (∀ inputFile instructions outputFile data result,
       files w !! inputFile = Some data →
       api_CreateEditImage R (openai_NewClient k)
         (imageEditing_request L inputFile data instructions)
       = Ok result →
       Data result = [] →
       main L R ImageEditing key [inputFile; instructions; outputFile] w
       = (Exited 1,
          add_logged "no result, no image edited"
            (add_call (CallCreateEditImage (openai_NewClient k)
                         (imageEditing_request L inputFile data instructions))
               (set_openaiKey key w)))).
Proof.
  intros k Hk. subst k. split.
  - intros prompt [images] Hapi Hdata. simpl in Hdata. subst images.
    unfold_main. simpl. destruct (decide _) as [|_]; [contradiction|].
    unfold_actions. fold (imageGeneration_request L prompt). now rewrite Hapi.
  - intros inputFile instructions outputFile data [images] Hfile Hapi Hdata.
    simpl in Hdata. subst images.
    unfold_main. simpl. destruct (decide _) as [|_]; [contradiction|].
    unfold_actions. rewrite Hfile. simpl.
    fold (imageEditing_request L inputFile data instructions). now rewrite Hapi.
Qed.

Lemma C7_witness :
  main Sample.libs Sample.remote ImageGeneration "sk-flag" ["none"] Sample.world
  = (Exited 1,
     add_logged ""
       (add_call (CallCreateImage (openai_NewClient "sk-flag")
                    (imageGeneration_request Sample.libs "none"))
          (set_openaiKey "sk-flag" Sample.world))).
Proof.
  pose proof (C7_no_images Sample.libs Sample.remote "sk-flag" Sample.world) as H.
  cbv zeta in H.
  destruct (H ltac:(vm_compute; discriminate)) as (Hgen & _).
  apply (Hgen "none" {| Data := [] |}); vm_compute; reflexivity.
Defined.

(** *** Image generation *)

(** C4 (as amended). When the API call of an image-generation invocation
    succeeds, the first image of the response transforms successfully and
    [output.png] can be written, the program writes the transformed bytes to
    [output.png], prints ["Image saved to output.png"] and returns. *)
Theorem C4_imageGeneration_success (L : Libs) (R : Remote) (key prompt : string)
    (w : World) (result : ImageResponse) (first : ImageResponseDataInner)
    (rest : list ImageResponseDataInner) (imageBytes : list byte) :
  let k := resolved_key_spec key (environ w) in
  let call := CallCreateImage (openai_NewClient k) (imageGeneration_request L prompt) in
  let run := main L R ImageGeneration key [prompt] w in
  k ≠ "" →
  api_CreateImage R (openai_NewClient k) (imageGeneration_request L prompt) = Ok result →
  Data result = first :: rest →
  strToImageBytes L (B64JSON first) = Ok imageBytes →
  "output.png" ∉ unwritable w →
  run = (Returned tt,
         add_stdout ("Image saved to output.png" +:+ String "010" "")
           (set_files (<["output.png" := imageBytes]> (files w))
              (add_call call (set_openaiKey key w))))
  ∧ files run.2 !! "output.png" = Some imageBytes
  ∧ stdout run.2 = stdout w +:+ "Image saved to output.png" +:+ String "010" "".
Proof.
  intros k call run Hk Hapi Hdata Himg Hw. subst k call run.
  destruct result as [images]. simpl in Hdata. subst images.
  assert (Hrun : main L R ImageGeneration key [prompt] w
    = (Returned tt,
       add_stdout ("Image saved to output.png" +:+ String "010" "")
         (set_files (<["output.png" := imageBytes]> (files w))
            (add_call (CallCreateImage
                         (openai_NewClient (resolved_key_spec key (environ w)))
                         (imageGeneration_request L prompt))
               (set_openaiKey key w))))).
  { unfold_main. simpl. destruct (decide _) as [|_]; [contradiction|].
    unfold_actions. fold (imageGeneration_request L prompt). rewrite Hapi. simpl.
    rewrite Himg. simpl. destruct (decide _) as [|_]; [contradiction|]. reflexivity. }
  rewrite Hrun. simpl. split; [reflexivity | split; [|reflexivity]].
  apply lookup_insert_eq.
Qed.

Lemma C4_witness :
  main Sample.libs Sample.remote ImageGeneration "" ["a cat"] Sample.world
  = (Returned tt,
     add_stdout ("Image saved to output.png" +:+ String "010" "")
       (set_files (<["output.png" := Sample.png_bytes]> (files Sample.world))
          (add_call (CallCreateImage (openai_NewClient "sk-env")
                       (imageGeneration_request Sample.libs "a cat"))
             (set_openaiKey "" Sample.world)))).
Proof.
  refine (proj1 (C4_imageGeneration_success Sample.libs Sample.remote "" "a cat"
                   Sample.world
                   {| Data := [ {| B64JSON := Sample.json_document Sample.png_b64 |} ] |}
                   {| B64JSON := Sample.json_document Sample.png_b64 |} []
                   Sample.png_bytes _ _ _ _ _)).
  - vm_compute. discriminate.
  - vm_compute. reflexivity.
  - reflexivity.
  - vm_compute. reflexivity.
  - vm_compute. set_solver.
Defined.

(** C4, the claim as stated fails twice.  A response whose second image
    transforms successfully, but not its first, ends in an exit without
    [output.png]; and so does a response whose image transforms
    successfully when [output.png] cannot be written. *)
Lemma C4_counterexample :
  let two := main Sample.libs Sample.remote ImageGeneration "" ["two"] Sample.world in
  let ro := main Sample.libs Sample.remote ImageGeneration "" ["x"] Sample.world_readonly in
  (api_CreateImage Sample.remote (openai_NewClient "sk-env")
     (imageGeneration_request Sample.libs "two")
   = Ok {| Data := [ {| B64JSON := "garbage" |};
                     {| B64JSON := Sample.json_document Sample.png_b64 |} ] |}
   ∧ strToImageBytes Sample.libs (Sample.json_document Sample.png_b64)
     = Ok Sample.png_bytes
   ∧ two.1 = Exited 1
   ∧ files two.2 !! "output.png" = None
   ∧ stdout two.2 = "")
  ∧ (api_CreateImage Sample.remote (openai_NewClient "sk-env")
       (imageGeneration_request Sample.libs "x")
     = Ok {| Data := [ {| B64JSON := Sample.json_document Sample.png_b64 |} ] |}
     ∧ ro.1 = Exited 1
     ∧ files ro.2 !! "output.png" = None
     ∧ stdout ro.2 = "").
Proof. vm_compute. repeat split; reflexivity. Qed.

(** *** One request per invocation *)




(** *** Frame *)

(** A run leaves the file system as it was, or writes one file, the
    designated output of the subcommand; the environment and the set of
    unwritable paths never change. *)
Lemma main_writes (L : Libs) (R : Remote) (sub : Subcommand) (key : string)
    (args : list string) (w : World) :
  let run := main L R sub key args w in
  environ run.2 = environ w
  ∧ unwritable run.2 = unwritable w
  ∧ (files run.2 = files w
     ∨ ∃ p data, designated_output sub args = Some p
                 ∧ files run.2 = <[p := data]> (files w)).
Proof.
  intros run. subst run.
  destruct sub; split_args args; unfold_main; simpl; unfold_actions; run_all;
    (split; [reflexivity | split; [reflexivity |]]);
    first [ left; reflexivity | right; eexists _, _; split; reflexivity ].
Qed.

(** A run reads the file system only at the named input files (and at the
    designated output, when it writes it): from two worlds that agree
    everywhere except on other files, the two runs end alike, print and log
    the same, issue the same API calls, and write the same. *)
Lemma main_reads (L : Libs) (R : Remote) (sub : Subcommand) (key : string)
    (args : list string) (w1 w2 : World) :
  let run1 := main L R sub key args w1 in
  let run2 := main L R sub key args w2 in
  same_outside_files (named_inputs sub args) w1 w2 →
  run1.1 = run2.1
  ∧ stdout run1.2 = stdout run2.2
  ∧ logged run1.2 = logged run2.2
  ∧ calls run1.2 = calls run2.2
  ∧ ((files run1.2 = files w1 ∧ files run2.2 = files w2)
     ∨ ∃ p data, designated_output sub args = Some p
                 ∧ files run1.2 = <[p := data]> (files w1)
                 ∧ files run2.2 = <[p := data]> (files w2)).
Proof.
  intros run1 run2 Hsame. subst run1 run2.
  destruct w1 as [key1 env1 files1 ro1 out1 log1 calls1].
  destruct w2 as [key2 env2 files2 ro2 out2 log2 calls2].
  destruct Hsame as (Henv & Hro & Hout & Hlog & Hcalls & Hfiles).
  simpl in Henv, Hro, Hout, Hlog, Hcalls, Hfiles. subst env2 ro2 out2 log2 calls2.
  revert Hfiles.
  destruct sub; split_args args; unfold_main; simpl; unfold_actions;
    intros Hfiles;
    repeat (first [ rewrite for_range_Println
                  | match goal with
                    | |- context [files1 !! ?f] =>
                        rewrite (Hfiles f ltac:(simpl; set_solver))
                    end
                  | case_inner ];
            simpl in *; try discriminate);
    unfold fmt_Println; simpl;
    (split; [reflexivity | split; [reflexivity | split; [reflexivity |
       split; [reflexivity |]]]]);
    first [ left; split; reflexivity
          | right; eexists _, _; split; [reflexivity | split; reflexivity] ].
Qed.

(** C8. An invocation changes no file other than its designated output
    ([output.png] for image generation, the output path given for image
    editing and audio generation, none otherwise), changes neither the
    environment nor the set of unwritable paths, and depends on the file
    system only through its named input files. *)
Theorem C8_frame (L : Libs) (R : Remote) (sub : Subcommand) (key : string)
    (args : list string) :
  (∀ w p, designated_output sub args ≠ Some p →
          files (main L R sub key args w).2 !! p = files w !! p)
  ∧ (∀ w, environ (main L R sub key args w).2 = environ w
          ∧ unwritable (main L R sub key args w).2 = unwritable w)
  ∧ (∀ w1 w2,
       same_outside_files (named_inputs sub args) w1 w2 →
       (main L R sub key args w1).1 = (main L R sub key args w2).1
       ∧ stdout (main L R sub key args w1).2 = stdout (main L R sub key args w2).2
       ∧ logged (main L R sub key args w1).2 = logged (main L R sub key args w2).2
       ∧ calls (main L R sub key args w1).2 = calls (main L R sub key args w2).2
       ∧ ∀ p, designated_output sub args = Some p →
              files (main L R sub key args w1).2 !! p = files w1 !! p
              ∧ files (main L R sub key args w2).2 !! p = files w2 !! p
              ∨ files (main L R sub key args w1).2 !! p
                = files (main L R sub key args w2).2 !! p).
Proof.
  split; [|split].
  - intros w p Hp.
    destruct (main_writes L R sub key args w) as (_ & _ & [-> | (q & data & Hq & ->)]);
      [reflexivity|].
    apply lookup_insert_ne. congruence.
  - intros w. destruct (main_writes L R sub key args w) as (He & Hu & _). now split.
  - intros w1 w2 Hsame.
    destruct (main_reads L R sub key args w1 w2 Hsame)
      as (Ho & Hs & Hl & Hc & Hf).
    repeat (split; [assumption|]).
    intros p Hp. destruct Hf as [[-> ->] | (q & data & Hq & -> & ->)].
    + left. now split.
    + right. assert (q = p) as -> by congruence.
      now rewrite !lookup_insert_eq.
Qed.

Lemma C8_witness :
  files (main Sample.libs Sample.remote ImageGeneration "" ["a cat"] Sample.world).2
    !! "in.png"
  = files Sample.world !! "in.png".
Proof.
  apply (proj1 (C8_frame Sample.libs Sample.remote ImageGeneration "" ["a cat"])).
  simpl. discriminate.
Defined.

(** ** Further properties of the handlers *)

(** *** Success paths *)

(** X1. Image recognition of a readable file, when the API call succeeds
    with at least one choice: the prompt sent is the fixed prefix followed by
    the base64 text of the file, and only the first choice is printed,
    whatever follows it. *)
Theorem X1_imageRecognition_success (L : Libs) (R : Remote) (key filename : string)
    (w : World) (data : list byte) (result : CompletionResponse)
    (first : CompletionChoice) (others : list CompletionChoice) :
  let k := resolved_key_spec key (environ w) in
  let call := CallCreateCompletion (openai_NewClient k) (imageRecognition_request data) in
  k ≠ "" →
  files w !! filename = Some data →
  api_CreateCompletion R (openai_NewClient k) (imageRecognition_request data) = Ok result →
  Choices result = first :: others →
  main L R ImageRecognition key [filename] w
  = (Returned tt,
     add_stdout (Text first +:+ String "010" "") (add_call call (set_openaiKey key w))).
Proof.
  intros k call Hk Hfile Hapi Hchoices. subst k call.
  destruct result as [choices]. simpl in Hchoices. subst choices.
  unfold_main. simpl. destruct (decide _) as [|_]; [contradiction|].
  unfold_actions. rewrite Hfile. simpl.
  fold (imageRecognition_request data). rewrite Hapi. reflexivity.
Qed.

Lemma X1_witness :
  main Sample.libs Sample.remote ImageRecognition "" ["in.png"] Sample.world
  = (Returned tt,
     add_stdout ("Hello" +:+ String "010" "")
       (add_call (CallCreateCompletion (openai_NewClient "sk-env")
                    (imageRecognition_request Sample.png_bytes))
          (set_openaiKey "" Sample.world))).
Proof.
  apply (X1_imageRecognition_success Sample.libs Sample.remote "" "in.png" Sample.world
           Sample.png_bytes
           {| Choices := [ {| Text := "Hello" |}; {| Text := "World" |} ] |}
           {| Text := "Hello" |} [ {| Text := "World" |} ]).
  - vm_compute. discriminate.
  - vm_compute. reflexivity.
  - vm_compute. reflexivity.
  - reflexivity.
Defined.

(** X2. Image editing, when the input file opens, the API call succeeds, the
    first image of the response transforms and the output path can be
    written: the request carries the input file as it was read and the
    second argument as prompt, the transformed bytes are written to the
    third argument (which may be the input file itself), and
    ["Image saved to <output>"] is printed. *)
Theorem X2_imageEditing_success (L : Libs) (R : Remote)
    (key inputFile instructions outputFile : string) (w : World) (data : list byte)
    (result : ImageResponse) (first : ImageResponseDataInner)
    (others : list ImageResponseDataInner) (ret_bytes : list byte) :
  let k := resolved_key_spec key (environ w) in
  let call := CallCreateEditImage (openai_NewClient k)
                (imageEditing_request L inputFile data instructions) in
  let run := main L R ImageEditing key [inputFile; instructions; outputFile] w in
  k ≠ "" →
  files w !! inputFile = Some data →
  api_CreateEditImage R (openai_NewClient k)
    (imageEditing_request L inputFile data instructions) = Ok result →
  Data result = first :: others →
  strToImageBytes L (B64JSON first) = Ok ret_bytes →
  outputFile ∉ unwritable w →
  run = (Returned tt,
         add_stdout ("Image saved to " +:+ outputFile +:+ String "010" "")
           (set_files (<[outputFile := ret_bytes]> (files w))
              (add_call call (set_openaiKey key w))))
  ∧ files run.2 !! outputFile = Some ret_bytes.
Proof.
  intros k call run Hk Hfile Hapi Hdata Himg Hw. subst k call run.
  destruct result as [images]. simpl in Hdata. subst images.
  assert (Hrun : main L R ImageEditing key [inputFile; instructions; outputFile] w
    = (Returned tt,
       add_stdout ("Image saved to " +:+ outputFile +:+ String "010" "")
         (set_files (<[outputFile := ret_bytes]> (files w))
            (add_call (CallCreateEditImage
                         (openai_NewClient (resolved_key_spec key (environ w)))
                         (imageEditing_request L inputFile data instructions))
               (set_openaiKey key w))))).
  { unfold_main. simpl. destruct (decide _) as [|_]; [contradiction|].
    unfold_actions. rewrite Hfile. simpl.
    fold (imageEditing_request L inputFile data instructions). rewrite Hapi. simpl.
    rewrite Himg. simpl. destruct (decide _) as [|_]; [contradiction|]. reflexivity. }
  rewrite Hrun. split; [reflexivity|]. simpl. apply lookup_insert_eq.
Qed.

Lemma X2_witness :
  files (main Sample.libs Sample.remote ImageEditing ""
           ["in.png"; "make it blue"; "in.png"] Sample.world).2 !! "in.png"
  = Some Sample.png_bytes.
Proof.
  refine (proj2 (X2_imageEditing_success Sample.libs Sample.remote "" "in.png"
                   "make it blue" "in.png" Sample.world Sample.png_bytes
                   {| Data := [ {| B64JSON := Sample.json_document Sample.png_b64 |} ] |}
                   {| B64JSON := Sample.json_document Sample.png_b64 |} []
                   Sample.png_bytes _ _ _ _ _ _)).
  - vm_compute. discriminate.
  - vm_compute. reflexivity.
  - vm_compute. reflexivity.
  - reflexivity.
  - vm_compute. reflexivity.
  - vm_compute. set_solver.
Defined.

Lemma string_of_bytes_of_string (s : string) : string_of_bytes (bytes_of_string s) = s.
Proof. apply string_of_list_byte_of_string. Qed.

(** X3. Audio generation, when the completion call succeeds with at least
    one choice and the output path can be written: the file receives the
    bytes of the first choice's text (read back as a string it is that
    text), and ["Audio saved to <output>"] is printed. *)
Theorem X3_audioGeneration_success (L : Libs) (R : Remote) (key text outputFile : string)
    (w : World) (result : CompletionResponse) (first : CompletionChoice)
    (others : list CompletionChoice) :
  let k := resolved_key_spec key (environ w) in
  let call := CallCreateCompletion (openai_NewClient k) (audioGeneration_request text) in
  let run := main L R AudioGeneration key [text; outputFile] w in
  k ≠ "" →
  api_CreateCompletion R (openai_NewClient k) (audioGeneration_request text) = Ok result →
  Choices result = first :: others →
  outputFile ∉ unwritable w →
  run = (Returned tt,
         add_stdout ("Audio saved to " +:+ outputFile +:+ String "010" "")
           (set_files (<[outputFile := bytes_of_string (Text first)]> (files w))
              (add_call call (set_openaiKey key w))))
  ∧ string_of_bytes <$> files run.2 !! outputFile = Some (Text first).
Proof.
  intros k call run Hk Hapi Hchoices Hw. subst k call run.
  destruct result as [choices]. simpl in Hchoices. subst choices.
  assert (Hrun : main L R AudioGeneration key [text; outputFile] w
    = (Returned tt,
       add_stdout ("Audio saved to " +:+ outputFile +:+ String "010" "")
         (set_files (<[outputFile := bytes_of_string (Text first)]> (files w))
            (add_call (CallCreateCompletion
                         (openai_NewClient (resolved_key_spec key (environ w)))
                         (audioGeneration_request text))
               (set_openaiKey key w))))).
  { unfold_main. simpl. destruct (decide _) as [|_]; [contradiction|].
    unfold_actions. fold (audioGeneration_request text). rewrite Hapi. simpl.
    destruct (decide _) as [|_]; [contradiction|]. reflexivity. }
  rewrite Hrun. split; [reflexivity|]. simpl.
  rewrite lookup_insert_eq. simpl. now rewrite string_of_bytes_of_string.
Qed.

Lemma X3_witness :
  string_of_bytes
    <$> files (main Sample.libs Sample.remote AudioGeneration "" ["say hi"; "out.mp3"]
                 Sample.world).2 !! "out.mp3"
  = Some "Hello".
Proof.
  refine (proj2 (X3_audioGeneration_success Sample.libs Sample.remote "" "say hi"
                   "out.mp3" Sample.world
                   {| Choices := [ {| Text := "Hello" |}; {| Text := "World" |} ] |}
                   {| Text := "Hello" |} [ {| Text := "World" |} ] _ _ _ _)).
  - vm_compute. discriminate.
  - vm_compute. reflexivity.
  - reflexivity.
  - vm_compute. set_solver.
Defined.

(** X4. Audio transcription: the handler does not open the file itself; the
    client is handed the path, and when its call succeeds the transcript is
    printed on one line. *)
Theorem X4_audioTranscription_success (L : Libs) (R : Remote) (key filename : string)
    (w : World) (result : AudioResponse) :
  let k := resolved_key_spec key (environ w) in
  let req := {| ar_FilePath := filename; ar_Model := "whisper-3";
                ar_Prompt := "用简体中文"; ar_Temperature := 1 # 2;
                ar_Language := "zh" |} in
  k ≠ "" →
  api_CreateTranscription R (openai_NewClient k) req (files w !! filename) = Ok result →
  main L R AudioTranscription key [filename] w
  = (Returned tt,
     add_stdout (ar_Text result +:+ String "010" "")
       (add_call (CallCreateTranscription (openai_NewClient k) req)
          (set_openaiKey key w))).
Proof.
  intros k req Hk Hapi. subst k req.
  unfold_main. simpl. destruct (decide _) as [|_]; [contradiction|].
  unfold_actions. now rewrite Hapi.
Qed.

Lemma X4_witness :
  stdout (main Sample.libs Sample.remote AudioTranscription "" ["in.png"]
            Sample.world).2
  = "transcript" +:+ String "010" "".
Proof.
  rewrite (X4_audioTranscription_success Sample.libs Sample.remote "" "in.png"
             Sample.world {| ar_Text := "transcript" |}).
  - reflexivity.
  - vm_compute. discriminate.
  - vm_compute. reflexivity.
Defined.

(** X5. Code generation, when the completion call succeeds with at least one
    choice: only the first choice is printed. *)
Theorem X5_codeGeneration_success (L : Libs) (R : Remote) (key prompt : string)
    (w : World) (result : CompletionResponse) (first : CompletionChoice)
    (others : list CompletionChoice) :
  let k := resolved_key_spec key (environ w) in
  let call := CallCreateCompletion (openai_NewClient k) (codeGeneration_request prompt) in
  k ≠ "" →
  api_CreateCompletion R (openai_NewClient k) (codeGeneration_request prompt) = Ok result →
  Choices result = first :: others →
  main L R CodeGeneration key [prompt] w
  = (Returned tt,
     add_stdout (Text first +:+ String "010" "") (add_call call (set_openaiKey key w))).
Proof.
  intros k call Hk Hapi Hchoices. subst k call.
  destruct result as [choices]. simpl in Hchoices. subst choices.
  unfold_main. simpl. destruct (decide _) as [|_]; [contradiction|].
  unfold_actions. fold (codeGeneration_request prompt). now rewrite Hapi.
Qed.

Lemma X5_witness :
  main Sample.libs Sample.remote CodeGeneration "" ["quicksort"] Sample.world
  = (Returned tt,
     add_stdout ("Hello" +:+ String "010" "")
       (add_call (CallCreateCompletion (openai_NewClient "sk-env")
                    (codeGeneration_request "quicksort"))
          (set_openaiKey "" Sample.world))).
Proof.
  apply (X5_codeGeneration_success Sample.libs Sample.remote "" "quicksort" Sample.world
           {| Choices := [ {| Text := "Hello" |}; {| Text := "World" |} ] |}
           {| Text := "Hello" |} [ {| Text := "World" |} ]).
  - vm_compute. discriminate.
  - vm_compute. reflexivity.
  - reflexivity.
Defined.

(** *** Failure paths *)



(** X7. When the first image of a successful response does not transform
    (the JSON, base64 or image step fails with [e]), image generation and
    image editing log [e] and exit with status 1 after their one API call;
    no file is written and nothing is printed. *)
Theorem X7_transform_failure (L : Libs) (R : Remote) (key : string) (w : World)
    (first : ImageResponseDataInner) (others : list ImageResponseDataInner) (e : error) :
  let k := resolved_key_spec key (environ w) in
  k ≠ "" →
  strToImageBytes L (B64JSON first) = Err e →
  (∀ prompt,
     api_CreateImage R (openai_NewClient k) (imageGeneration_request L prompt)
     = Ok {| Data := first :: others |} →
     main L R ImageGeneration key [prompt] w
     = (Exited 1,
        add_logged e
          (add_call (CallCreateImage (openai_NewClient k)
                       (imageGeneration_request L prompt))
             (set_openaiKey key w))))
  ∧ (∀ inputFile instructions outputFile data,
       files w !! inputFile = Some data →
       api_CreateEditImage R (openai_NewClient k)
         (imageEditing_request L inputFile data instructions)
       = Ok {| Data := first :: others |} →
       main L R ImageEditing key [inputFile; instructions; outputFile] w
       = (Exited 1,
          add_logged e
            (add_call (CallCreateEditImage (openai_NewClient k)
                         (imageEditing_request L inputFile data instructions))
               (set_openaiKey key w)))).
Proof.
  intros k Hk Himg. subst k. split.
  - intros prompt Hapi. unfold_main. simpl.
    destruct (decide _) as [|_]; [contradiction|].
    unfold_actions. fold (imageGeneration_request L prompt). rewrite Hapi. simpl.
    now rewrite Himg.
  - intros inputFile instructions outputFile data Hfile Hapi. unfold_main. simpl.
    destruct (decide _) as [|_]; [contradiction|].
    unfold_actions. rewrite Hfile. simpl.
    fold (imageEditing_request L inputFile data instructions). rewrite Hapi. simpl.
    now rewrite Himg.
Qed.

Lemma X7_witness :
  main Sample.libs Sample.remote ImageGeneration "" ["raw"] Sample.world
  = (Exited 1,
     add_logged "invalid character 'i' looking for beginning of value"
       (add_call (CallCreateImage (openai_NewClient "sk-env")
                    (imageGeneration_request Sample.libs "raw"))
          (set_openaiKey "" Sample.world))).
Proof.
  pose proof (X7_transform_failure Sample.libs Sample.remote "" Sample.world
                {| B64JSON := Sample.png_b64 |} []
                "invalid character 'i' looking for beginning of value") as H.
  cbv zeta in H.
  destruct (H ltac:(vm_compute; discriminate) ltac:(vm_compute; reflexivity))
    as (Hgen & _).
  apply (Hgen "raw"). vm_compute. reflexivity.
Defined.

(** X8. When the designated output path cannot be written, no run of a
    writing subcommand returns normally, whatever the API answers: the file
    system is left as it was and nothing is printed (no "saved" line). *)
Theorem X8_write_failure (L : Libs) (R : Remote) (sub : Subcommand) (key : string)
    (args : list string) (w : World) (p : string) :
  let run := main L R sub key args w in
  designated_output sub args = Some p →
  p ∈ unwritable w →
  run.1 ≠ Returned tt
  ∧ files run.2 = files w
  ∧ stdout run.2 = stdout w.
Proof.
  intros run. subst run. revert p.
  destruct sub; split_args args; unfold_main; simpl; unfold_actions;
    intros path Hout Hro; try discriminate Hout; injection Hout as <-;
    repeat (first [ match goal with
                    | |- context [decide (?q ∈ unwritable w)] =>
                        destruct (decide (q ∈ unwritable w)) as [_|Hn];
                        [|contradiction]
                    end
                  | case_inner ];
            simpl in *; try discriminate);
    repeat split; try reflexivity; discriminate.
Qed.

Lemma X8_witness :
  (main Sample.libs Sample.remote ImageGeneration "" ["a cat"] Sample.world_readonly).1
  ≠ Returned tt
  ∧ files (main Sample.libs Sample.remote ImageGeneration "" ["a cat"]
             Sample.world_readonly).2
    = files Sample.world_readonly
  ∧ stdout (main Sample.libs Sample.remote ImageGeneration "" ["a cat"]
              Sample.world_readonly).2
    = stdout Sample.world_readonly.
Proof.
  apply (X8_write_failure Sample.libs Sample.remote ImageGeneration "" ["a cat"]
           Sample.world_readonly "output.png").
  - reflexivity.
  - vm_compute. set_solver.
Defined.

(** *** What a run never does *)

(** X9. The only panic of the program is the index-out-of-range of an
    unchecked [[0]]: either [dialogue] was given no argument (no API call
    was made), or a completion call of [imageRecognition], [audioGeneration]
    or [codeGeneration] succeeded with an empty choice list.  Image
    generation, image editing and audio transcription never panic: the
    length checks before [result.Data[0]] see to it.  A run that panics has
    printed, logged and written nothing. *)
Theorem X9_panic_sources (L : Libs) (R : Remote) (sub : Subcommand) (key : string)
    (args : list string) (w : World) (msg : string) :
  let run := main L R sub key args w in
  run.1 = Panicked msg →
  msg = msg_index_out_of_range_0
  ∧ files run.2 = files w ∧ stdout run.2 = stdout w ∧ logged run.2 = logged w
  ∧ ((sub = Dialogue ∧ args = [] ∧ calls run.2 = calls w)
     ∨ ((sub = ImageRecognition ∨ sub = AudioGeneration ∨ sub = CodeGeneration)
        ∧ ∃ cl req,
            calls run.2 = calls w ++ [CallCreateCompletion cl req]
            ∧ api_CreateCompletion R cl req = Ok {| Choices := [] |})).
Proof.
  intros run. subst run. revert msg.
  destruct sub; split_args args; unfold_main; simpl; unfold_actions; run_all;
    intros m Hm; try discriminate Hm; injection Hm as <-;
    repeat match goal with
      | v : CompletionResponse |- _ => destruct v as [[|? ?]]; simpl in *
      | v : ImageResponse |- _ => destruct v as [[|? ?]]; simpl in *
      end;
    try discriminate;
    (split; [reflexivity | split; [reflexivity | split; [reflexivity |
       split; [reflexivity |]]]]);
    first [ left; repeat split; reflexivity
          | right; split; [tauto | eexists _, _; split; [reflexivity | eassumption]] ].
Qed.

Lemma X9_witness :
  files (main Sample.libs Sample.remote CodeGeneration "" ["none"] Sample.world).2
  = files Sample.world
  ∧ calls (main Sample.libs Sample.remote CodeGeneration "" ["none"] Sample.world).2
    = [CallCreateCompletion (openai_NewClient "sk-env") (codeGeneration_request "none")].
Proof.
  destruct (X9_panic_sources Sample.libs Sample.remote CodeGeneration "" ["none"]
              Sample.world msg_index_out_of_range_0 ltac:(vm_compute; reflexivity))
    as (_ & Hfiles & _ & _ & _).
  split; [exact Hfiles | vm_compute; reflexivity].
Defined.

(** X10. How a run ends and what it leaves on the console.  A run that
    returns has logged nothing and has only appended to standard output.  A
    run that exits does so with status 1, after exactly one log message,
    with nothing printed and no file changed: every handler prints last and
    writes just before. *)
Theorem X10_exit_discipline (L : Libs) (R : Remote) (sub : Subcommand) (key : string)
    (args : list string) (w : World) :
  let run := main L R sub key args w in
  (run.1 = Returned tt →
   logged run.2 = logged w ∧ ∃ out, stdout run.2 = stdout w +:+ out)
  ∧ (∀ code, run.1 = Exited code →
       code = 1%Z
       ∧ (∃ msg, logged run.2 = logged w ++ [msg])
       ∧ stdout run.2 = stdout w
       ∧ files run.2 = files w).
Proof.
  intros run. subst run.
  destruct sub; split_args args; unfold_main; simpl; unfold_actions; run_all;
    (split; [intros Hr; try discriminate Hr | intros code Hc; try discriminate Hc]);
    try (injection Hc as <-);
    first [ split; [reflexivity | eexists; reflexivity]
          | split; [reflexivity | split; [eexists; reflexivity | split; reflexivity]]
          | split; [reflexivity | exists ""; symmetry; apply append_nil_r] ].
Qed.

Lemma X10_witness :
  logged (main Sample.libs Sample.remote Dialogue "" ["hi"] Sample.world).2
  = logged Sample.world
  ∧ ∃ out, stdout (main Sample.libs Sample.remote Dialogue "" ["hi"] Sample.world).2
           = stdout Sample.world +:+ out.
Proof.
  apply (proj1 (X10_exit_discipline Sample.libs Sample.remote Dialogue "" ["hi"]
                  Sample.world)).
  vm_compute. reflexivity.
Defined.

(** X11. A writing subcommand returns only after it has written what it was
    to write.  The run of image generation, image editing or audio
    generation returns exactly when the key resolves, the API answers
    something to write (a first image that transforms, a first choice) and
    the designated output can be written; the output file then holds exactly
    those bytes, it is the one file that changed, and the text printed is
    the "saved" line naming it. *)
Theorem X11_returned_means_written (L : Libs) (R : Remote) (sub : Subcommand)
    (key : string) (args : list string) (w : World) (p : string) :
  let run := main L R sub key args w in
  let k := resolved_key_spec key (environ w) in
  designated_output sub args = Some p →
  (run.1 = Returned tt →
   ∃ data what,
     k ≠ ""
     ∧ expected_output L R sub args w (openai_NewClient k) = Some data
     ∧ (p ∉ unwritable w)
     ∧ files run.2 = <[p := data]> (files w)
     ∧ files run.2 !! p = Some data
     ∧ stdout run.2 = stdout w +:+ what +:+ " saved to " +:+ p +:+ String "010" "")
  ∧ (k ≠ "" →
     is_Some (expected_output L R sub args w (openai_NewClient k)) →
     p ∉ unwritable w →
     run.1 = Returned tt).
Proof.
  intros run k. subst run k. revert p.
  destruct sub; split_args args; intros path Hout; try discriminate Hout;
    simpl in Hout; injection Hout as <-;
    (split;
     [ unfold_main; simpl; unfold_actions;
       unfold expected_output, imageGeneration_request, imageEditing_request,
         audioGeneration_request;
       run_all;
       intros Hr; try discriminate Hr;
       simplify_eq;
       repeat match goal with
         | H1 : ?t = _, H2 : ?t = _ |- _ => rewrite H1 in H2
         end;
       simplify_eq; try congruence;
       eexists _, _;
       (split; [assumption |]);
       (split; [reflexivity |]);
       (split; [assumption |]);
       (split; [reflexivity |]);
       (split; [apply lookup_insert_eq |]);
       first [ instantiate (1 := "Image"); reflexivity
             | instantiate (1 := "Audio"); reflexivity ]
     | intros Hk [data Hdata] Hw; revert Hdata;
       unfold_main; simpl; unfold_actions;
       unfold expected_output, imageGeneration_request, imageEditing_request,
         audioGeneration_request;
       (destruct (decide (resolved_key_spec key (environ w) = "")) as [|_];
        [contradiction|]); simpl;
       repeat (case_inner; simpl in *; try discriminate; try contradiction);
       simplify_eq;
       repeat match goal with
         | H1 : ?t = _, H2 : ?t = _ |- _ => rewrite H1 in H2
         end;
       simplify_eq; try congruence;
       intros; reflexivity ]).
Qed.

Lemma X11_witness :
  ∃ data what,
    resolved_key_spec "" (environ Sample.world) ≠ ""
    ∧ expected_output Sample.libs Sample.remote ImageGeneration ["a cat"] Sample.world
        (openai_NewClient (resolved_key_spec "" (environ Sample.world)))
      = Some data
    ∧ ("output.png" ∉ unwritable Sample.world)
    ∧ files (main Sample.libs Sample.remote ImageGeneration "" ["a cat"] Sample.world).2
      = <["output.png" := data]> (files Sample.world)
    ∧ files (main Sample.libs Sample.remote ImageGeneration "" ["a cat"] Sample.world).2
        !! "output.png"
      = Some data
    ∧ stdout (main Sample.libs Sample.remote ImageGeneration "" ["a cat"] Sample.world).2
      = stdout Sample.world +:+ what +:+ " saved to " +:+ "output.png" +:+ String "010" "".
Proof.
  apply (proj1 (X11_returned_means_written Sample.libs Sample.remote ImageGeneration ""
                  ["a cat"] Sample.world "output.png" eq_refl)).
  vm_compute. reflexivity.
Defined.

(** *** Arguments, key and requests *)

(** X12. [dialogue] reads its first argument only: further positional
    arguments are accepted (no [Args] constraint) and ignored, so two
    argument lists with the same first element (or both empty) give the
    same run. *)
Theorem X12_dialogue_ignores_extra_args (L : Libs) (R : Remote) (key : string)
    (args1 args2 : list string) (w : World) :
  args1 !! 0%nat = args2 !! 0%nat →
  main L R Dialogue key args1 w = main L R Dialogue key args2 w.
Proof.
  intros Hhead.
  destruct args1 as [|p1 more1], args2 as [|p2 more2]; simpl in Hhead;
    try discriminate Hhead; [reflexivity|].
  injection Hhead as <-. reflexivity.
Qed.

Lemma X12_witness :
  main Sample.libs Sample.remote Dialogue "" ["tell"; "me"; "a"; "joke"] Sample.world
  = main Sample.libs Sample.remote Dialogue "" ["tell"] Sample.world.
Proof.
  apply (X12_dialogue_ignores_extra_args Sample.libs Sample.remote ""
           ["tell"; "me"; "a"; "joke"] ["tell"] Sample.world).
  reflexivity.
Defined.

Lemma resolved_key_flag (key : string) (env : gmap string string) :
  key ≠ "" → resolved_key_spec key env = key.
Proof. intros Hk. unfold resolved_key_spec. now destruct (decide _). Qed.

(** X13. With a non-empty [--key] the environment is not consulted: two runs
    from worlds that differ only in their environment end alike, with the
    same console output, log, files and API calls. *)
Theorem X13_flag_shadows_environment (L : Libs) (R : Remote) (sub : Subcommand)
    (key : string) (args : list string) (w : World) (env' : gmap string string) :
  let w' := {| openaiKey := openaiKey w; environ := env'; files := files w;
               unwritable := unwritable w; stdout := stdout w; logged := logged w;
               calls := calls w |} in
  let run := main L R sub key args w in
  let run' := main L R sub key args w' in
  key ≠ "" →
  run.1 = run'.1
  ∧ files run.2 = files run'.2
  ∧ stdout run.2 = stdout run'.2
  ∧ logged run.2 = logged run'.2
  ∧ calls run.2 = calls run'.2.
Proof.
  intros w' run run' Hk. subst w' run run'.
  destruct sub; split_args args; unfold_main; simpl;
    rewrite ?(resolved_key_flag key (environ w) Hk), ?(resolved_key_flag key env' Hk);
    unfold_actions; run_all; repeat split; reflexivity.
Qed.

Lemma X13_witness :
  calls (main Sample.libs Sample.remote Dialogue "sk-flag" ["hi"] Sample.world).2
  = calls (main Sample.libs Sample.remote Dialogue "sk-flag" ["hi"] Sample.world_nokey).2.
Proof.
  apply (X13_flag_shadows_environment Sample.libs Sample.remote Dialogue "sk-flag" ["hi"]
           Sample.world ∅).
  discriminate.
Defined.

(** X14. What a subcommand sends.  Whatever happens in a run, it issues no
    API call or exactly the call of its handler: the method of the
    subcommand, with the resolved key, the fixed model and parameters, and
    the positional arguments passed verbatim (for image recognition the
    prefixed base64 text of the file, for image editing the file as
    opened). *)
Theorem X14_call_shape (L : Libs) (R : Remote) (sub : Subcommand) (key : string)
    (args : list string) (w : World) :
  let run := main L R sub key args w in
  let cl := openai_NewClient (resolved_key_spec key (environ w)) in
  calls run.2 = calls w
  ∨ ∃ c, expected_call L sub args w cl = Some c ∧ calls run.2 = calls w ++ [c].
Proof.
  intros run cl. subst run cl.
  destruct sub; split_args args; unfold_main; simpl; unfold_actions; run_all;
    first [ left; reflexivity
          | right; eexists; split; [|reflexivity]; simpl;
            repeat match goal with H : files w !! _ = _ |- _ => rewrite H end;
            reflexivity ].
Qed.

(** X15. Invocations compose through the file system: after a successful
    image generation, an image recognition of [output.png] sends the base64
    text of exactly the bytes the first invocation wrote. *)
Theorem X15_generation_then_recognition (L : Libs) (R : Remote) (key prompt : string)
    (w : World) (first : ImageResponseDataInner) (others : list ImageResponseDataInner)
    (imageBytes : list byte) :
  let k := resolved_key_spec key (environ w) in
  let w1 := (main L R ImageGeneration key [prompt] w).2 in
  let w2 := (main L R ImageRecognition key ["output.png"] w1).2 in
  k ≠ "" →
  api_CreateImage R (openai_NewClient k) (imageGeneration_request L prompt)
  = Ok {| Data := first :: others |} →
  strToImageBytes L (B64JSON first) = Ok imageBytes →
  "output.png" ∉ unwritable w →
  calls w2
  = calls w
    ++ [CallCreateImage (openai_NewClient k) (imageGeneration_request L prompt);
        CallCreateCompletion (openai_NewClient k) (imageRecognition_request imageBytes)].
Proof.
  intros k w1 w2 Hk Hapi Himg Hw. subst k w1 w2.
  assert (Hrun : main L R ImageGeneration key [prompt] w
    = (Returned tt,
       add_stdout ("Image saved to output.png" +:+ String "010" "")
         (set_files (<["output.png" := imageBytes]> (files w))
            (add_call (CallCreateImage
                         (openai_NewClient (resolved_key_spec key (environ w)))
                         (imageGeneration_request L prompt))
               (set_openaiKey key w))))).
  { unfold_main. simpl. destruct (decide _) as [|_]; [contradiction|].
    unfold_actions. fold (imageGeneration_request L prompt). rewrite Hapi. simpl.
    rewrite Himg. simpl. destruct (decide _) as [|_]; [contradiction|]. reflexivity. }
  rewrite Hrun. cbn [snd].
  unfold_main. simpl. destruct (decide _) as [|_]; [contradiction|].
  unfold_actions. rewrite lookup_insert_eq. simpl.
  destruct (api_CreateCompletion R _ _) as [[[|c cs]]|]; simpl;
    now rewrite <- app_assoc.
Qed.

Lemma X15_witness :
  calls (main Sample.libs Sample.remote ImageRecognition "" ["output.png"]
           (main Sample.libs Sample.remote ImageGeneration "" ["a cat"] Sample.world).2).2
  = calls Sample.world
    ++ [CallCreateImage (openai_NewClient "sk-env")
          (imageGeneration_request Sample.libs "a cat");
        CallCreateCompletion (openai_NewClient "sk-env")
          (imageRecognition_request Sample.png_bytes)].
Proof.
  apply (X15_generation_then_recognition Sample.libs Sample.remote "" "a cat"
           Sample.world {| B64JSON := Sample.json_document Sample.png_b64 |} []
           Sample.png_bytes).
  - vm_compute. discriminate.
  - vm_compute. reflexivity.
  - vm_compute. reflexivity.
  - vm_compute. set_solver.
Defined.

(** *** Base64: what [imageRecognition] encodes can be decoded *)

Section Base64Facts.
Import Base64.

Local Open Scope N_scope.

Lemma testbit_shiftl (a n m : N) :
  N.testbit (N.shiftl a n) m = (n <=? m) && N.testbit a (m - n).
Proof.
  destruct (N.leb_spec n m) as [H|H]; simpl.
  - now apply N.shiftl_spec_high'.
  - now apply N.shiftl_spec_low.
Qed.

Lemma testbit_63 (m : N) : N.testbit 63 m = (m <? 6).
Proof.
  change 63 with (N.ones 6).
  destruct (N.ltb_spec m 6) as [H|H].
  - now apply N.ones_spec_low.
  - now apply N.ones_spec_high.
Qed.

Lemma testbit_mod256 (a m : N) : N.testbit (a mod 256) m = (m <? 8) && N.testbit a m.
Proof.
  change 256 with (2 ^ 8).
  destruct (N.ltb_spec m 8) as [H|H]; simpl.
  - now apply N.mod_pow2_bits_low.
  - now apply N.mod_pow2_bits_high.
Qed.

Lemma testbit_small (a n m : N) : a < 2 ^ n → n <= m → N.testbit a m = false.
Proof.
  intros Ha Hm. rewrite <- (N.mod_small a (2 ^ n)) by exact Ha.
  now apply N.mod_pow2_bits_high.
Qed.

Lemma testbit_byte (b : byte) (m : N) : 8 <= m → N.testbit (Byte.to_N b) m = false.
Proof.
  intros Hm. apply (testbit_small _ 8); [|exact Hm].
  pose proof (Byte.to_N_bounded b). change (2 ^ 8) with 256. lia.
Qed.

Lemma byte_of_N_to_N (b : byte) : byte_of_N (Byte.to_N b) = b.
Proof.
  unfold byte_of_N. rewrite N.mod_small.
  - now rewrite Byte.of_to_N.
  - pose proof (Byte.to_N_bounded b). lia.
Qed.

(** A byte is determined by the low eight bits of a number. *)
Lemma byte_of_N_bits (x : N) (b : byte) :
  (∀ m, m < 8 → N.testbit x m = N.testbit (Byte.to_N b) m) → byte_of_N x = b.
Proof.
  intros H. rewrite <- (byte_of_N_to_N b). unfold byte_of_N.
  replace (x mod 256) with (Byte.to_N b mod 256); [reflexivity|].
  apply N.bits_inj. intros m. rewrite !testbit_mod256.
  destruct (N.ltb_spec m 8) as [Hm|Hm]; simpl; [|reflexivity].
  symmetry. now apply H.
Qed.

Lemma sextet_lt (x : N) : N.land x 63 < 64.
Proof.
  change 63 with (N.ones 6). rewrite N.land_ones. now apply N.mod_lt.
Qed.

Lemma decodeMap_encodeMap (s : N) : s < 64 → decodeMap (encodeMap s) = s.
Proof.
  intros Hs. rewrite <- (N2Nat.id s).
  assert (Hn : (N.to_nat s < 64)%nat) by lia.
  revert Hn. generalize (N.to_nat s). intros n Hn.
  do 64 (destruct n as [|n]; [vm_compute; reflexivity|]).
  lia.
Qed.

(** One letter of the alphabet read by the decoder. *)
Lemma decode_letter (s : N) (rest : list byte) (si : nat) (dbuf : list N)
    (dst : list byte) :
  s < 64 →
  decode (encodeMap s :: rest) si dbuf dst
  = if Nat.eqb (length (dbuf ++ [s])) 4
    then decode rest (S si) [] (dst ++ quantum 4 (dbuf ++ [s]))
    else decode rest (S si) (dbuf ++ [s]) dst.
Proof.
  intros Hs. cbn [decode]. rewrite (decodeMap_encodeMap s Hs).
  destruct (N.eqb_spec s 255) as [->|_]; [lia | reflexivity].
Qed.

Ltac bits_cases :=
  repeat match goal with
    | |- context [N.leb ?a ?b] => destruct (N.leb_spec a b)
    | |- context [N.ltb ?a ?b] => destruct (N.ltb_spec a b)
    end;
  simpl; try lia.

(** The bits of the value the decoder reassembles from four sextets. *)
Lemma testbit_quantum_val (d0 d1 d2 d3 m : N) :
  N.testbit (N.lor (N.lor (N.shiftl d0 18) (N.shiftl d1 12))
                   (N.lor (N.shiftl d2 6) d3)) m
  = ((18 <=? m) && N.testbit d0 (m - 18)) || ((12 <=? m) && N.testbit d1 (m - 12))
    || (((6 <=? m) && N.testbit d2 (m - 6)) || N.testbit d3 m).
Proof. now rewrite !N.lor_spec, !testbit_shiftl. Qed.

Lemma testbit_sextet (x k i : N) :
  N.testbit (N.land (N.shiftr x k) 63) i = N.testbit x (i + k) && (i <? 6).
Proof. now rewrite N.land_spec, N.shiftr_spec', testbit_63. Qed.


(** [val3 a b c] is the 24-bit group [encode] forms from three bytes. *)
Lemma testbit_val3 (a b c : byte) (j : N) :
  N.testbit (N.lor (N.lor (N.shiftl (Byte.to_N a) 16) (N.shiftl (Byte.to_N b) 8))
                   (Byte.to_N c)) j
  = ((16 <=? j) && N.testbit (Byte.to_N a) (j - 16))
    || ((8 <=? j) && N.testbit (Byte.to_N b) (j - 8))
    || N.testbit (Byte.to_N c) j.
Proof. now rewrite !N.lor_spec, !testbit_shiftl. Qed.

(** Splitting a 24-bit group into sextets and reassembling it is the
    identity. *)
Lemma reassemble (x : N) :
  (∀ m, 24 <= m → N.testbit x m = false) →
  N.lor (N.lor (N.shiftl (N.land (N.shiftr x 18) 63) 18)
               (N.shiftl (N.land (N.shiftr x 12) 63) 12))
        (N.lor (N.shiftl (N.land (N.shiftr x 6) 63) 6) (N.land x 63))
  = x.
Proof.
  intros Hhigh. apply N.bits_inj. intros m.
  rewrite testbit_quantum_val, !testbit_sextet.
  rewrite <- (N.shiftr_0_r x) at 4. rewrite testbit_sextet.
  destruct (N.le_gt_cases 24 m) as [H24|H24].
  - rewrite (Hhigh m H24).
    replace (m + 0) with m by lia.
    rewrite (Hhigh (m - 18 + 18)), (Hhigh (m - 12 + 12)), (Hhigh (m - 6 + 6)),
      (Hhigh m) by lia.
    bits_cases.
  - replace (m + 0) with m by lia.
    destruct (N.le_gt_cases 18 m); [|destruct (N.le_gt_cases 12 m);
      [|destruct (N.le_gt_cases 6 m)]];
      repeat match goal with
        | |- context [N.testbit x (m - ?k + ?k)] =>
            first [ replace (m - k + k) with m by lia
                  | let e := fresh "e" in
                    let He := fresh "He" in
                    remember (N.testbit x (m - k + k)) as e eqn:He; clear He ]
        end;
      destruct (N.testbit x m); bits_cases;
      repeat match goal with e : bool |- _ => destruct e end; reflexivity.
Qed.

Lemma val3_high (a b c : byte) (m : N) :
  24 <= m →
  N.testbit (N.lor (N.lor (N.shiftl (Byte.to_N a) 16) (N.shiftl (Byte.to_N b) 8))
                   (Byte.to_N c)) m = false.
Proof.
  intros Hm. rewrite testbit_val3.
  rewrite (testbit_byte a), (testbit_byte b), (testbit_byte c) by lia.
  bits_cases.
Qed.

Lemma val3_bytes (a b c : byte) :
  let x := N.lor (N.lor (N.shiftl (Byte.to_N a) 16) (N.shiftl (Byte.to_N b) 8))
                 (Byte.to_N c) in
  byte_of_N (N.shiftr x 16) = a ∧ byte_of_N (N.shiftr x 8) = b ∧ byte_of_N x = c.
Proof.
  intros x. subst x. repeat split; apply byte_of_N_bits; intros m Hm;
    rewrite ?N.shiftr_spec', testbit_val3.
  - replace (m + 16 - 16) with m by lia.
    rewrite (testbit_byte b), (testbit_byte c) by lia. bits_cases.
    now rewrite !orb_false_r.
  - replace (m + 8 - 8) with m by lia.
    rewrite (testbit_byte c) by lia. bits_cases. now rewrite orb_false_r.
  - bits_cases. reflexivity.
Qed.

Lemma sextet_zero (x k : N) :
  (∀ i, i < 6 → N.testbit x (i + k) = false) → N.land (N.shiftr x k) 63 = 0.
Proof.
  intros H. apply N.bits_inj. intros i. rewrite testbit_sextet, N.bits_0.
  destruct (N.ltb_spec i 6) as [Hi|Hi]; [rewrite (H i Hi)|]; now rewrite ?andb_false_r.
Qed.

(** The decoder's quantum gives back the bytes of a full group... *)
Lemma quantum_full (a b c : byte) :
  let x := N.lor (N.lor (N.shiftl (Byte.to_N a) 16) (N.shiftl (Byte.to_N b) 8))
                 (Byte.to_N c) in
  quantum 4 [N.land (N.shiftr x 18) 63; N.land (N.shiftr x 12) 63;
             N.land (N.shiftr x 6) 63; N.land x 63]
  = [a; b; c].
Proof.
  intros x. unfold quantum. cbn [nth Nat.sub firstn].
  rewrite (reassemble x (val3_high a b c)).
  destruct (val3_bytes a b c) as (Ha & Hb & Hc). fold x in Ha, Hb, Hc.
  now rewrite Ha, Hb, Hc.
Qed.

(** ... of a padded group of two bytes ... *)
Lemma quantum_two (a b : byte) :
  let x := N.lor (N.shiftl (Byte.to_N a) 16) (N.shiftl (Byte.to_N b) 8) in
  quantum 3 [N.land (N.shiftr x 18) 63; N.land (N.shiftr x 12) 63;
             N.land (N.shiftr x 6) 63]
  = [a; b].
Proof.
  intros x. unfold quantum. cbn [nth Nat.sub firstn].
  assert (Hx : x = N.lor x (Byte.to_N "000"%byte)) by (symmetry; apply N.lor_0_r).
  assert (Hlow : N.land x 63 = 0).
  { rewrite <- (N.shiftr_0_r x). apply sextet_zero. intros i Hi.
    rewrite Hx. unfold x. rewrite testbit_val3.
    rewrite N.bits_0. bits_cases. }
  replace (N.lor (N.shiftl (N.land (N.shiftr x 6) 63) 6) 0)
    with (N.lor (N.shiftl (N.land (N.shiftr x 6) 63) 6) (N.land x 63))
    by now rewrite Hlow.
  assert (Hhigh : ∀ m, 24 <= m → N.testbit x m = false).
  { intros m Hm. rewrite Hx. unfold x. now apply val3_high. }
  rewrite (reassemble x Hhigh).
  destruct (val3_bytes a b "000"%byte) as (Ha & Hb & _). cbv zeta in Ha, Hb.
  change (Byte.to_N "000"%byte) with 0 in Ha, Hb. rewrite N.lor_0_r in Ha, Hb.
  fold x in Ha, Hb. now rewrite Ha, Hb.
Qed.

(** ... and of a padded group of one byte. *)
Lemma quantum_one (a : byte) :
  let x := N.shiftl (Byte.to_N a) 16 in
  quantum 2 [N.land (N.shiftr x 18) 63; N.land (N.shiftr x 12) 63] = [a].
Proof.
  intros x. unfold quantum. cbn [nth Nat.sub firstn].
  assert (Hx : x = N.lor (N.lor x (N.shiftl (Byte.to_N "000"%byte) 8))
                         (Byte.to_N "000"%byte)).
  { change (Byte.to_N "000"%byte) with 0. now rewrite N.shiftl_0_l, !N.lor_0_r. }
  assert (Hbit : ∀ j, j < 16 → N.testbit x j = false).
  { intros j Hj. rewrite Hx. unfold x. rewrite testbit_val3.
    change (Byte.to_N "000"%byte) with 0. rewrite !N.bits_0. bits_cases. }
  assert (H0 : N.land x 63 = 0).
  { rewrite <- (N.shiftr_0_r x). apply sextet_zero. intros i Hi. apply Hbit. lia. }
  assert (H6 : N.land (N.shiftr x 6) 63 = 0).
  { apply sextet_zero. intros i Hi. apply Hbit. lia. }
  replace (N.lor (N.shiftl 0 6) 0)
    with (N.lor (N.shiftl (N.land (N.shiftr x 6) 63) 6) (N.land x 63))
    by now rewrite H0, H6.
  assert (Hhigh : ∀ m, 24 <= m → N.testbit x m = false).
  { intros m Hm. rewrite Hx. unfold x. now apply val3_high. }
  rewrite (reassemble x Hhigh).
  destruct (val3_bytes a "000"%byte "000"%byte) as (Ha & _ & _). cbv zeta in Ha.
  change (Byte.to_N "000"%byte) with 0 in Ha.
  rewrite N.shiftl_0_l, !N.lor_0_r in Ha. fold x in Ha. now rewrite Ha.
Qed.

Lemma decode_encode_groups (bs : list byte) :
  (∀ si dst, decode (encode bs) si [] dst = Ok (dst ++ bs))
  ∧ (∀ a si dst, decode (encode (a :: bs)) si [] dst = Ok (dst ++ a :: bs))
  ∧ (∀ a b si dst, decode (encode (a :: b :: bs)) si [] dst = Ok (dst ++ a :: b :: bs)).
Proof.
  induction bs as [|c bs (IH0 & IH1 & IH2)].
  - split; [|split].
    + intros si dst. simpl. now rewrite app_nil_r.
    + intros a si dst. cbn [encode].
      rewrite !decode_letter by apply sextet_lt. cbn [app length Nat.eqb].
      pose proof (quantum_one a) as Hq. cbv zeta in Hq.
      change (decode [padChar; padChar] (S (S si))
                [N.land (N.shiftr (N.shiftl (Byte.to_N a) 16) 18) 63;
                 N.land (N.shiftr (N.shiftl (Byte.to_N a) 16) 12) 63] dst)
        with (Ok (A := list byte)
                (dst ++ quantum 2
                   [N.land (N.shiftr (N.shiftl (Byte.to_N a) 16) 18) 63;
                    N.land (N.shiftr (N.shiftl (Byte.to_N a) 16) 12) 63])).
      now rewrite Hq.
    + intros a b si dst. cbn [encode].
      rewrite !decode_letter by apply sextet_lt. cbn [app length Nat.eqb].
      pose proof (quantum_two a b) as Hq. cbv zeta in Hq.
      match goal with
      | |- decode [padChar] ?s ?d dst = _ =>
          change (decode [padChar] s d dst)
            with (Ok (A := list byte) (dst ++ quantum 3 d))
      end.
      now rewrite Hq.
  - split; [exact (IH1 c) | split; [intros a; exact (IH2 a c) |]].
    intros a b si dst. cbn [encode].
    rewrite !decode_letter by apply sextet_lt. cbn [app length Nat.eqb].
    pose proof (quantum_full a b c) as Hq. cbv zeta in Hq. rewrite Hq.
    rewrite IH0. now rewrite <- app_assoc.
Qed.

Lemma Base64_decode_encode (data : list byte) :
  DecodeString (EncodeToString data) = Ok data.
Proof.
  unfold DecodeString, EncodeToString, bytes_of_string, string_of_bytes.
  rewrite list_byte_of_string_of_list_byte.
  exact (proj1 (decode_encode_groups data) 0%nat []).
Qed.

End Base64Facts.

(** X16. Base64 round trip: the prompt of [imageRecognition] is the fixed
    prefix followed by text that decodes, with the decoder [strToImageBytes]
    uses, to exactly the bytes of the file: [EncodeToString] loses nothing
    and never produces text that [DecodeString] refuses. *)
Theorem X16_base64_round_trip (data : list byte) :
  cr_Prompt (imageRecognition_request data)
  = "描述这个图片: " +:+ Base64.EncodeToString data
  ∧ Base64.DecodeString (Base64.EncodeToString data) = Ok data.
Proof. split; [reflexivity | apply Base64_decode_encode]. Qed.

(** X17. When the [data] member of the payload is the standard base64 text
    of some bytes, [strToImageBytes] hands exactly those bytes to the image
    decoder: its result is the PNG re-encoding of the image they hold, or
    the decoder's or encoder's error. *)
Theorem X17_strToImageBytes_on_encoded_data (L : Libs) (input : string)
    (raw : list byte) :
  json_Unmarshal_ImageData L (bytes_of_string input) = Ok (Base64.EncodeToString raw) →
  strToImageBytes L input = result_bind (image_Decode L raw) (png_Encode L).
Proof.
  intros Hjson. unfold strToImageBytes, result_bind.
  rewrite Hjson, Base64_decode_encode.
  destruct (image_Decode L raw) as [img|]; [|reflexivity].
  now destruct (png_Encode L img).
Qed.

Lemma X17_witness :
  strToImageBytes Sample.libs
    (Sample.json_document (Base64.EncodeToString Sample.png_bytes))
  = Ok Sample.png_bytes.
Proof.
  rewrite (X17_strToImageBytes_on_encoded_data Sample.libs _ Sample.png_bytes).
  - vm_compute. reflexivity.
  - vm_compute. reflexivity.
Defined.
